(** * go-onfido, document.go: a shallow embedding and its properties

    The development follows [document.go]: the download sink
    [DocumentDownload], the quoting of form header values
    ([quoteEscaper], [escapeQuotes]), the file part of the upload
    ([createFormFile]), the four client operations ([UploadDocument],
    [GetDocument], [DownloadDocument], [ListDocuments]) and the typed
    iterator [DocumentIter].

    Go strings are byte strings and are embedded as [string]; a [[]byte]
    is a [list byte]; Go's [int] and [int64] are [Z].  A Go result pair
    [(v, err)] is a tuple whose error component is an [option error]
    ([None] is [nil]); a pointer that may be [nil] is an [option].
    Objects that Go mutates in place (the stream, the multipart writer,
    the iterator) are passed in and handed back; the requests that reach
    the network are appended to a log.  A run-time panic is an outcome of
    its own.

    The standard-library pieces the file calls ([strings.Replacer],
    [bytes.Reader], [bytes.Buffer], [textproto.MIMEHeader],
    [multipart.Writer]) are embedded with the behaviour the calls rely
    on. *)

From Stdlib Require Import Strings.String Strings.Ascii Strings.Byte.
From Stdlib Require Import List ZArith Lia Bool.
Import ListNotations.

Local Open Scope string_scope.
Local Open Scope Z_scope.

(** ** Characters and byte strings *)

Definition dquote : ascii := ascii_of_nat 34.
Definition backslash : ascii := ascii_of_nat 92.
Definition CR : ascii := ascii_of_nat 13.
Definition LF : ascii := ascii_of_nat 10.
Definition CRLF : string := String CR (String LF EmptyString).
Definition quote : string := String dquote EmptyString.

Definition bytes := list byte.

(** [[]byte(s)] and [string(b)]. *)
Definition bytes_of (s : string) : bytes := list_byte_of_string s.
Definition string_of (b : bytes) : string := string_of_list_byte b.

(** [len] of a slice, as a Go [int]. *)
Definition len {A : Type} (l : list A) : Z := Z.of_nat (length l).

(** ** Errors and outcomes *)

Inductive error : Type :=
| EOF
| ErrIO (msg : string)
| ErrClosedPart
| ErrRequest (msg : string)
| ErrTransport (msg : string)
| ErrAPI (status : Z) (message : string)
| ErrDecode (msg : string).

Inductive outcome (A : Type) : Type :=
| Returns (a : A)
| Panics (msg : string).

Arguments Returns {A} a.
Arguments Panics {A} msg.

(** ** strings.Replacer, for single-byte old strings

    [strings.NewReplacer] builds a byte-indexed table when every old
    string is one byte long; the table is filled from the last pair to
    the first, so the first pair for a byte wins.  [Replace] then maps
    every byte of its argument through the table. *)

Module strings.

Definition Replacer := ascii -> option string.

Definition NewReplacer (oldnew : list (ascii * string)) : Replacer :=
  fold_right
    (fun (p : ascii * string) (tbl : Replacer) =>
       fun b => if Ascii.eqb b (fst p) then Some (snd p) else tbl b)
    (fun _ => None) oldnew.

Fixpoint Replace (r : Replacer) (s : string) : string :=
  match s with
  | EmptyString => EmptyString
  | String b rest =>
      match r b with
      | Some n => n ++ Replace r rest
      | None => String b (Replace r rest)
      end
  end.

Fixpoint IndexByte (s : string) (c : ascii) : bool :=
  match s with
  | EmptyString => false
  | String d rest => Ascii.eqb c d || IndexByte rest c
  end.

Fixpoint ContainsAny (s chars : string) : bool :=
  match s with
  | EmptyString => false
  | String c rest => IndexByte chars c || ContainsAny rest chars
  end.

End strings.

(** ** document.go, lines 18-80: the data model *)

Definition DocumentType := string.
Definition DocumentSide := string.

Definition DocumentTypeUnknown : DocumentType := "unknown".
Definition DocumentTypePassport : DocumentType := "passport".
Definition DocumentTypeIDCard : DocumentType := "national_identity_card".
Definition DocumentTypeDrivingLicense : DocumentType := "driving_licence".
Definition DocumentTypeUKBRP : DocumentType := "uk_biometric_residence_permit".
Definition DocumentTypeTaxID : DocumentType := "tax_id".
Definition DocumentTypeVoterID : DocumentType := "voter_id".
Definition DocumentTypeBankStatement : DocumentType := "bank_statement".
Definition DocumentSideFront : DocumentSide := "front".
Definition DocumentSideBack : DocumentSide := "back".

(** [Type] is reserved in Rocq: the field is [Type_]. *)
Record Document : Type := {
  ID : string;
  CreatedAt : option Z;
  Href : string;
  DownloadHref : string;
  FileName : string;
  FileType : string;
  FileSize : Z;
  Type_ : DocumentType;
  Side : DocumentSide;
  IssuingCountry : string
}.

(** [var resp Document]. *)
Definition Document_zero : Document :=
  {| ID := ""; CreatedAt := None; Href := ""; DownloadHref := "";
     FileName := ""; FileType := ""; FileSize := 0;
     Type_ := ""; Side := ""; IssuingCountry := "" |}.

(** [Documents.Documents] is a [[]*Document]: the pointers may be nil. *)
Record Documents : Type := { Documents_ : list (option Document) }.

Definition Documents_zero : Documents := {| Documents_ := [] |}.

Record DocumentDownload : Type := {
  Size : Z;
  Content : bytes
}.

(** [func (d *DocumentDownload) Write(data []byte) (n int, err error)]:
    the receiver after the call, [n] and [err]. *)
Definition DocumentDownload_Write (d : DocumentDownload) (data : bytes)
  : DocumentDownload * Z * option error :=
  let d := {| Size := Size d; Content := data |} in
  let d := {| Size := len data; Content := Content d |} in
  (d, len data, None).

(** The receiver after a sequence of [Write] calls. *)
Definition DocumentDownload_Writes (d : DocumentDownload) (calls : list bytes)
  : DocumentDownload :=
  fold_left (fun d data => fst (fst (DocumentDownload_Write d data))) calls d.

(** ** document.go, lines 82-86: quoting *)

Definition quoteEscaper : strings.Replacer :=
  strings.NewReplacer
    [ (backslash, String backslash (String backslash EmptyString));
      (dquote, String backslash (String dquote EmptyString)) ].

Definition escapeQuotes (s : string) : string :=
  strings.Replace quoteEscaper s.

(** ** Streams: io.ReadSeeker

    The request's [File] is an [io.ReadSeeker].  It is embedded as
    [bytes.Reader] (content [s], reading index [i]) together with a
    script of failures: every call on the stream consumes the head of
    [faults], and a head [Some e] makes that call fail with [e] and
    leave the position alone.  With an empty script the stream is
    exactly a [bytes.Reader]. *)

Module io.

Record ReadSeeker : Type := {
  s : bytes;
  i : Z;
  faults : list (option error)
}.

Definition SeekStart : Z := 0.
Definition SeekCurrent : Z := 1.
Definition SeekEnd : Z := 2.

Definition step (f : ReadSeeker) : ReadSeeker :=
  {| s := s f; i := i f; faults := tl (faults f) |}.

Definition fault (f : ReadSeeker) : option error :=
  match faults f with
  | Some e :: _ => Some e
  | _ => None
  end.

(** The unread bytes, [r.s[r.i:]]. *)
Definition unread (f : ReadSeeker) : bytes := skipn (Z.to_nat (i f)) (s f).

(** [Read(b)] with [len(b) = n]: the stream after the call, the bytes
    stored at the front of [b], and the error. *)
Definition Read (f : ReadSeeker) (n : nat) : ReadSeeker * bytes * option error :=
  match fault f with
  | Some e => (step f, [], Some e)
  | None =>
      if len (s f) <=? i f then (step f, [], Some EOF)
      else
        let data := firstn n (unread f) in
        ({| s := s f; i := i f + len data; faults := tl (faults f) |}, data, None)
  end.

Definition Seek (f : ReadSeeker) (offset whence : Z) : ReadSeeker * Z * option error :=
  match fault f with
  | Some e => (step f, 0, Some e)
  | None =>
      if (whence <? 0) || (2 <? whence)
      then (step f, 0, Some (ErrIO "bytes.Reader.Seek: invalid whence"))
      else
        let abs :=
          if whence =? SeekStart then offset
          else if whence =? SeekCurrent then i f + offset
          else len (s f) + offset in
        if abs <? 0
        then (step f, 0, Some (ErrIO "bytes.Reader.Seek: negative position"))
        else ({| s := s f; i := abs; faults := tl (faults f) |}, abs, None)
  end.

(** The [io.Writer] interface: the writer after the call and the error
    (a successful [Write] takes the whole slice). *)
Class Writer (W : Type) : Type := Write : W -> bytes -> W * option error.

End io.

(** [bytes.Buffer]: [Write] appends and never fails. *)
Definition Buffer := bytes.

#[export] Instance Buffer_Writer : io.Writer Buffer :=
  fun (b : Buffer) (p : bytes) => ((b ++ p)%list, None).

(** ** textproto.MIMEHeader

    A map from header names to value lists.  [multipart.Writer.CreatePart]
    walks the names in sorted order, so the map is kept as an association
    list sorted by name; [Set] replaces the values of a name.  The names
    used here are already in canonical form. *)

Module textproto.

Definition MIMEHeader := list (string * list string).

Definition make : MIMEHeader := [].

Fixpoint Set_ (h : MIMEHeader) (key value : string) : MIMEHeader :=
  match h with
  | [] => [(key, [value])]
  | (k, vs) :: rest =>
      if String.eqb key k then (key, [value]) :: rest
      else if String.ltb key k then (key, [value]) :: (k, vs) :: rest
      else (k, vs) :: Set_ rest key value
  end.

(** [Get]: the first value of a name, the empty string when the name
    has none. *)
Fixpoint Get (h : MIMEHeader) (key : string) : string :=
  match h with
  | [] => ""
  | (k, vs) :: rest =>
      if String.eqb key k then hd "" vs else Get rest key
  end.

End textproto.

(** ** mime/multipart.Writer

    The writer over an [io.Writer] [W].  A part handle is the number of
    the part; the writer remembers the last part it created, whether it
    has been closed and the write error recorded for it. *)

Module multipart.

Definition part := nat.

Record lastpart_state : Type := {
  pid : part;
  closed : bool;
  we : option error
}.

Record Writer (W : Type) : Type := {
  w : W;
  boundary : string;
  lastpart : option lastpart_state;
  created : nat
}.

Arguments w {W} _.
Arguments boundary {W} _.
Arguments lastpart {W} _.
Arguments created {W} _.

Section Over.

Context {W : Type} `{io.Writer W}.

(** [NewWriter], with the boundary the random generator returned. *)
Definition NewWriter (sink : W) (randomBoundary : string) : Writer W :=
  {| w := sink; boundary := randomBoundary; lastpart := None; created := 0 |}.

(** [FormDataContentType]: the boundary is quoted when it holds one of
    the tspecials or a space. *)
Definition FormDataContentType (mw : Writer W) : string :=
  let b := boundary mw in
  let b :=
    if strings.ContainsAny b ("()<>@,;:\" ++ quote ++ "/[]?= ")
    then quote ++ b ++ quote else b in
  "multipart/form-data; boundary=" ++ b.

(** The header lines of a part: ["%s: %s\r\n"] for every value of every
    name, names in sorted order. *)
Definition headerLines (header : textproto.MIMEHeader) : string :=
  fold_right
    (fun (kv : string * list string) (acc : string) =>
       fold_right (fun v acc => fst kv ++ ": " ++ v ++ CRLF ++ acc) acc (snd kv))
    EmptyString header.

Definition partHead (mw : Writer W) (header : textproto.MIMEHeader) : string :=
  (match lastpart mw with
   | Some _ => CRLF ++ "--" ++ boundary mw ++ CRLF
   | None => "--" ++ boundary mw ++ CRLF
   end) ++ headerLines header ++ CRLF.

(** [lastpart.close()]: mark the part closed and report its write error. *)
Definition closeLast (mw : Writer W) : Writer W * option error :=
  match lastpart mw with
  | None => (mw, None)
  | Some p =>
      ({| w := w mw; boundary := boundary mw;
          lastpart := Some {| pid := pid p; closed := true; we := we p |};
          created := created mw |}, we p)
  end.

Definition CreatePart (mw : Writer W) (header : textproto.MIMEHeader)
  : Writer W * option part * option error :=
  match closeLast mw with
  | (mw1, Some e) => (mw1, None, Some e)
  | (mw1, None) =>
      match io.Write (w mw1) (bytes_of (partHead mw header)) with
      | (sink, Some e) =>
          ({| w := sink; boundary := boundary mw1; lastpart := lastpart mw1;
              created := created mw1 |}, None, Some e)
      | (sink, None) =>
          let p := created mw1 in
          ({| w := sink; boundary := boundary mw1;
              lastpart := Some {| pid := p; closed := false; we := None |};
              created := S p |}, Some p, None)
      end
  end.

(** [part.Write]: refused once the part is finished; a failure of the
    underlying writer is recorded in the part. *)
Definition part_Write (mw : Writer W) (p : part) (d : bytes)
  : Writer W * Z * option error :=
  match lastpart mw with
  | Some lp =>
      if Nat.eqb (pid lp) p && negb (closed lp) then
        match io.Write (w mw) d with
        | (sink, Some e) =>
            ({| w := sink; boundary := boundary mw;
                lastpart := Some {| pid := pid lp; closed := closed lp; we := Some e |};
                created := created mw |}, 0, Some e)
        | (sink, None) =>
            ({| w := sink; boundary := boundary mw; lastpart := lastpart mw;
                created := created mw |}, len d, None)
        end
      else (mw, 0, Some ErrClosedPart)
  | None => (mw, 0, Some ErrClosedPart)
  end.

(** [CreateFormField]. *)
Definition CreateFormField (mw : Writer W) (fieldname : string)
  : Writer W * option part * option error :=
  let h := textproto.Set_ textproto.make "Content-Disposition"
             ("form-data; name=" ++ quote ++ escapeQuotes fieldname ++ quote) in
  CreatePart mw h.

Definition WriteField (mw : Writer W) (fieldname value : string)
  : Writer W * option error :=
  match CreateFormField mw fieldname with
  | (mw1, _, Some e) => (mw1, Some e)
  | (mw1, None, None) => (mw1, Some ErrClosedPart)
  | (mw1, Some p, None) =>
      let '(mw2, _, err) := part_Write mw1 p (bytes_of value) in
      (mw2, err)
  end.

Definition Close (mw : Writer W) : Writer W * option error :=
  match closeLast mw with
  | (mw1, Some e) => (mw1, Some e)
  | (mw1, None) =>
      let '(sink, err) :=
        io.Write (w mw1) (bytes_of (CRLF ++ "--" ++ boundary mw1 ++ "--" ++ CRLF)) in
      ({| w := sink; boundary := boundary mw1; lastpart := None;
          created := created mw1 |}, err)
  end.

(** [io.Copy(part, file)]: the stream writes its unread bytes to the part
    in one [Write] and moves to its end. *)
Definition Copy (mw : Writer W) (p : part) (f : io.ReadSeeker)
  : Writer W * io.ReadSeeker * Z * option error :=
  match io.fault f with
  | Some e => (mw, io.step f, 0, Some e)
  | None =>
      if len (io.s f) <=? io.i f then (mw, io.step f, 0, None)
      else
        let b := io.unread f in
        let '(mw1, m, err) := part_Write mw p b in
        (mw1, {| io.s := io.s f; io.i := io.i f + m; io.faults := tl (io.faults f) |},
         m, err)
  end.

End Over.

End multipart.

(** ** The HTTP side

    A request carries its method, URL, headers and body; a response its
    status code, its body and the URL of the next page taken from its
    link metadata (empty when there is none). *)

Record Request : Type := {
  Method : string;
  URL : string;
  Header : textproto.MIMEHeader;
  Body : option bytes
}.

Record Response : Type := {
  StatusCode : Z;
  RespBody : bytes;
  NextPage : string
}.

(** [req.Header.Set(key, value)]. *)
Definition Header_Set (req : Request) (key value : string) : Request :=
  {| Method := Method req; URL := URL req;
     Header := textproto.Set_ (Header req) key value; Body := Body req |}.

Record Context : Type := { cancelled : bool }.

Definition Background : Context := {| cancelled := false |}.

(** The collaborators the package consumes as black boxes: the random
    boundary of a new multipart writer, [http.DetectContentType], the
    validation [http.NewRequest] performs on a method and a URL, and the
    JSON codec (decoding into a target may fill it in part before it
    fails). *)
Class Runtime : Type := {
  randomBoundary : string;
  DetectContentType : bytes -> string;
  http_invalid : string -> string -> option error;
  json_Document : bytes -> Document -> Document * option error;
  json_Documents : bytes -> Documents -> Documents * option error;
  json_errorMessage : bytes -> string
}.

(** The client: its base endpoint and its HTTP transport, which answers
    a request with a response or fails. *)
Record Client : Type := {
  Endpoint : string;
  HTTPClient : Context -> Request -> error + Response
}.

Section Package.

Context {rt : Runtime}.

(** Modelled from the spec: [newRequest] is not in document.go.  It
    builds a request for a method, a path suffix joined onto the
    configured base endpoint, and a body; [http.NewRequest] returns a nil
    request together with its error when it rejects the method or the
    URL. *)
Definition newRequest (c : Client) (method uri : string) (body : option bytes)
  : option Request * option error :=
  match http_invalid method (Endpoint c ++ uri) with
  | Some e => (None, Some e)
  | None =>
      (Some {| Method := method; URL := Endpoint c ++ uri;
               Header := textproto.make; Body := body |}, None)
  end.

Definition is2xx (code : Z) : bool := (200 <=? code) && (code <=? 299).

(** Modelled from the spec: [do] is not in document.go.  It hands the
    request to the transport with the caller's context, which the log
    records; a transport failure is returned
    as it is; a status outside 2xx fails with an API error carrying the
    status code and the message decoded from the body, and leaves the
    target alone; otherwise the body is decoded into the target.  The
    result is the response, the target after the call and the error. *)
Definition do {A : Type} (c : Client) (ctx : Context) (req : Request)
    (decode : bytes -> A -> A * option error) (v : A) (net : list Request)
  : option Response * A * option error * list Request :=
  let net := (net ++ [req])%list in
  match HTTPClient c ctx req with
  | inl e => (None, v, Some e, net)
  | inr resp =>
      if is2xx (StatusCode resp) then
        let '(v, err) := decode (RespBody resp) v in
        (Some resp, v, err, net)
      else
        (None, v,
         Some (ErrAPI (StatusCode resp) (json_errorMessage (RespBody resp))), net)
  end.

(** Modelled from the spec: [download] is not in document.go.  It is
    [do] for a binary endpoint: the raw bytes of a 2xx response are the
    result. *)
Definition download (c : Client) (ctx : Context) (req : Request)
    (net : list Request) : bytes * option error * list Request :=
  let '(_, blob, err, net) := do c ctx req (fun body _ => (body, None)) [] net in
  (blob, err, net).

(** ** document.go, lines 40-46 *)

(** [Type], [Side] and [IssuingCountry] are fields of [Document] as
    well: in the request they carry the prefix [dr_]. *)
Record DocumentRequest : Type := {
  File : io.ReadSeeker;
  dr_Type : DocumentType;
  dr_Side : DocumentSide;
  dr_IssuingCountry : string
}.

(** ** document.go, lines 88-115 *)

(** [buffer := make([]byte, 512)] after [file.Read(buffer)] stored
    [data] at its front. *)
Definition sniffBuffer (data : bytes) : bytes :=
  (data ++ repeat "000"%byte (512 - length data))%list.

(** [fmt.Sprintf] of the Content-Disposition value. *)
Definition fileDisposition (fieldname filename : string) : string :=
  "form-data; name=" ++ quote ++ escapeQuotes fieldname ++ quote
  ++ "; filename=" ++ quote ++ escapeQuotes filename ++ quote.

Definition createFormFile {W : Type} `{io.Writer W}
    (writer : multipart.Writer W) (fieldname : string) (file : io.ReadSeeker)
    (filename : string)
  : multipart.Writer W * io.ReadSeeker * option multipart.part * option error :=
  let '(file, data, err) := io.Read file 512 in
  let buffer := sniffBuffer data in
  match err with
  | Some e => (writer, file, None, Some e)
  | None =>
      let '(file, _, err) := io.Seek file 0 0 in
      match err with
      | Some e => (writer, file, None, Some e)
      | None =>
          let h := textproto.make in
          let h := textproto.Set_ h "Content-Disposition"
                     (fileDisposition fieldname filename) in
          let h := textproto.Set_ h "Content-Type" (DetectContentType buffer) in
          let '(writer, p, err) := multipart.CreatePart writer h in
          (writer, file, p, err)
      end
  end.

(** ** document.go, lines 117-176: the operations

    Every operation takes the log of the requests sent so far and hands
    back the extended log; [UploadDocument] also hands back the stream. *)

Definition UploadDocument (c : Client) (ctx : Context) (applicantID : string)
    (dr : DocumentRequest) (filename : string) (net : list Request)
  : outcome (option Document * option error) * io.ReadSeeker * list Request :=
  let body : Buffer := [] in
  let writer := multipart.NewWriter body randomBoundary in
  let '(writer, file, part, err) := createFormFile writer "file" (File dr) filename in
  match err with
  | Some e => (Returns (None, Some e), file, net)
  | None =>
  match part with
  | None => (Panics "invalid memory address or nil pointer dereference", file, net)
  | Some part =>
  let '(writer, file, _, err) := multipart.Copy writer part file in
  match err with
  | Some e => (Returns (None, Some e), file, net)
  | None =>
  let '(writer, err) := multipart.WriteField writer "type" (dr_Type dr) in
  match err with
  | Some e => (Returns (None, Some e), file, net)
  | None =>
  let '(writer, err) := multipart.WriteField writer "side" (dr_Side dr) in
  match err with
  | Some e => (Returns (None, Some e), file, net)
  | None =>
  let '(writer, err) :=
    multipart.WriteField writer "issuing_country" (dr_IssuingCountry dr) in
  match err with
  | Some e => (Returns (None, Some e), file, net)
  | None =>
  let '(writer, err) := multipart.Close writer in
  match err with
  | Some e => (Returns (None, Some e), file, net)
  | None =>
  let '(req, err) :=
    newRequest c "POST" ("/applicants/" ++ applicantID ++ "/documents")
      (Some (multipart.w writer)) in
  match req with
  | None => (Panics "invalid memory address or nil pointer dereference", file, net)
  | Some req =>
  let req := Header_Set req "Content-Type" (multipart.FormDataContentType writer) in
  match err with
  | Some e => (Returns (None, Some e), file, net)
  | None =>
  let resp := Document_zero in
  let '(_, resp, err, net) := do c ctx req json_Document resp net in
  (Returns (Some resp, err), file, net)
  end end end end end end end end end.

Definition GetDocument (c : Client) (ctx : Context) (applicantID id : string)
    (net : list Request)
  : outcome (option Document * option error) * list Request :=
  let '(req, err) :=
    newRequest c "GET" ("/applicants/" ++ applicantID ++ "/documents/" ++ id) None in
  match err with
  | Some e => (Returns (None, Some e), net)
  | None =>
      match req with
      | None => (Panics "invalid memory address or nil pointer dereference", net)
      | Some req =>
          let resp := Document_zero in
          let '(_, resp, err, net) := do c ctx req json_Document resp net in
          (Returns (Some resp, err), net)
      end
  end.

(** The source passes [&resp] as a third argument to [download] although
    the function declares no [resp]; the argument is left out. *)
Definition DownloadDocument (c : Client) (ctx : Context) (applicantID id : string)
    (net : list Request)
  : outcome (option DocumentDownload * option error) * list Request :=
  let '(req, err) :=
    newRequest c "GET"
      ("/applicants/" ++ applicantID ++ "/documents/" ++ id ++ "/download") None in
  match err with
  | Some e => (Returns (None, Some e), net)
  | None =>
      match req with
      | None => (Panics "invalid memory address or nil pointer dereference", net)
      | Some req =>
          let '(blob, err, net) := download c ctx req net in
          (Returns (Some {| Size := len blob; Content := blob |}, err), net)
      end
  end.

End Package.

(** ** The page iterator *)

(** The items of a page are [interface{}] values: a [*Document] (which
    may be nil) or a value of another resource. *)
Inductive any : Type :=
| PtrDocument (p : option Document)
| OtherValue (kind : string).

Module iter.

(** Modelled from the spec: the type [iter] and its methods are not in
    document.go.  The cursor holds the client, the URL of the next page
    (empty when there is none), the decode callback, the items of the
    current page, the index into them and the recorded error. *)
Record t : Type := {
  c : Client;
  nextURL : string;
  handler : bytes -> list any * option error;
  values : list any;
  index : nat;
  err : option error
}.

Section Cursor.

Context {rt : Runtime}.

Definition fail (it : t) (e : error) : t :=
  {| c := c it; nextURL := nextURL it; handler := handler it;
     values := values it; index := index it; err := Some e |}.

(** Modelled from the spec: [Next].  Failed is terminal.  If the page
    has unread items the index moves on and the result is true.
    Otherwise, with a next-page URL, the page is fetched and decoded
    through the callback, the index goes back to the first item, the
    next-page URL is taken from the page's link, and the result is true
    when the page is not empty; a failed fetch or decode records the
    error and gives false.  Without a next-page URL the result is false
    and no error is recorded. *)
Definition Next (it : t) (ctx : Context) (net : list Request)
  : bool * t * list Request :=
  match err it with
  | Some _ => (false, it, net)
  | None =>
      if (S (index it) <? length (values it))%nat then
        (true,
         {| c := c it; nextURL := nextURL it; handler := handler it;
            values := values it; index := S (index it); err := None |}, net)
      else if String.eqb (nextURL it) "" then (false, it, net)
      else
        match newRequest (c it) "GET" (nextURL it) None with
        | (_, Some e) => (false, fail it e, net)
        | (None, None) => (false, fail it (ErrRequest "nil request"), net)
        | (Some req, None) =>
            let '(resp, body, e, net) :=
              do (c it) ctx req (fun b _ => (b, None)) [] net in
            match e with
            | Some e => (false, fail it e, net)
            | None =>
                let '(items, e) := handler it body in
                match e with
                | Some e => (false, fail it e, net)
                | None =>
                    (negb (Nat.eqb (length items) 0),
                     {| c := c it;
                        nextURL := match resp with
                                   | Some r => NextPage r
                                   | None => ""
                                   end;
                        handler := handler it;
                        values := items; index := O; err := None |}, net)
                end
            end
        end
  end.

(** Modelled from the spec: [Current] is the item at the in-page index,
    nil when there is none. *)
Definition Current (it : t) : option any := nth_error (values it) (index it).

(** Modelled from the spec: [Err] is the recorded error, nil when there
    is none. *)
Definition Err (it : t) : option error := err it.

End Cursor.

End iter.

(** ** document.go, lines 178-209 *)

Section Listing.

Context {rt : Runtime}.

Record DocumentIter : Type := { iter_ : iter.t }.

(** [Document]: the current item asserted to be a [*Document]; the type
    assertion panics on a nil interface and on a value of another type. *)
Definition DocumentIter_Document (i : DocumentIter) : outcome (option Document) :=
  match iter.Current (iter_ i) with
  | Some (PtrDocument p) => Returns p
  | Some (OtherValue kind) =>
      Panics ("interface conversion: interface {} is " ++ kind ++ ", not *onfido.Document")
  | None => Panics "interface conversion: interface {} is nil, not *onfido.Document"
  end.

Definition ListDocuments_handler (body : bytes) : list any * option error :=
  let d := Documents_zero in
  let '(d, err) := json_Documents body d in
  match err with
  | Some e => ([], Some e)
  | None =>
      let values := map PtrDocument (Documents_ d) in
      (values, None)
  end.

Definition ListDocuments (c : Client) (applicantID : string) : DocumentIter :=
  {| iter_ :=
       {| iter.c := c;
          iter.nextURL := "/applicants/" ++ applicantID ++ "/documents";
          iter.handler := ListDocuments_handler;
          iter.values := []; iter.index := O; iter.err := None |} |}.

(** The promoted methods of the embedded iterator. *)
Definition DocumentIter_Next (i : DocumentIter) (ctx : Context) (net : list Request)
  : bool * DocumentIter * list Request :=
  let '(ok, it, net) := iter.Next (iter_ i) ctx net in
  (ok, {| iter_ := it |}, net).

Definition DocumentIter_Err (i : DocumentIter) : option error := iter.Err (iter_ i).

End Listing.

(** ** Concrete collaborators for the examples

    A runtime with a fixed boundary, a content-type detector that knows
    the PDF signature, the URL check of [net/url] for control bytes, and
    a stand-in codec: a document body is read as the document's
    identifier, a list body as a list holding one such document, and an
    empty body is malformed. *)

Definition isControl (ch : ascii) : bool :=
  (nat_of_ascii ch <? 32)%nat || Nat.eqb (nat_of_ascii ch) 127.

Definition withID (id : string) (d : Document) : Document :=
  {| ID := id; CreatedAt := CreatedAt d; Href := Href d;
     DownloadHref := DownloadHref d; FileName := FileName d;
     FileType := FileType d; FileSize := FileSize d; Type_ := Type_ d;
     Side := Side d; IssuingCountry := IssuingCountry d |}.

Definition sampleRuntime : Runtime :=
  {| randomBoundary := "7d3f0c";
     DetectContentType := fun b =>
       match firstn 5 b with
       | ["%"; "P"; "D"; "F"; "-"]%byte => "application/pdf"
       | _ => "application/octet-stream"
       end;
     http_invalid := fun _ url =>
       if existsb isControl (list_ascii_of_string url)
       then Some (ErrRequest "net/url: invalid control character in URL")
       else None;
     json_Document := fun b d =>
       match b with
       | [] => (d, Some (ErrDecode "unexpected end of JSON input"))
       | _ => (withID (string_of b) d, None)
       end;
     json_Documents := fun b d =>
       match b with
       | [] => (d, Some (ErrDecode "unexpected end of JSON input"))
       | _ => ({| Documents_ := [Some (withID (string_of b) Document_zero)] |}, None)
       end;
     json_errorMessage := string_of |}.

(** A server that answers every request with the same response. *)
Definition answering (status : Z) (body : string) : Client :=
  {| Endpoint := "https://api.onfido.com/v2";
     HTTPClient := fun _ _ =>
       inr {| StatusCode := status; RespBody := bytes_of body; NextPage := "" |} |}.

Definition thingsWentBad : string :=
  "{" ++ quote ++ "error" ++ quote ++ ": " ++ quote ++ "things went bad" ++ quote ++ "}".

Definition forbidden : Client := answering 403 thingsWentBad.

(** [bytes.NewReader(b)]. *)
Definition NewReader (b : bytes) : io.ReadSeeker :=
  {| io.s := b; io.i := 0; io.faults := [] |}.

Definition sampleRequest : DocumentRequest :=
  {| File := NewReader (bytes_of "test");
     dr_Type := DocumentTypeIDCard;
     dr_Side := "";
     dr_IssuingCountry := "" |}.

(** ** Specification-side definitions

    What the statements below compare the code with. *)

(** The escaping as the specification words it: every backslash becomes
    two backslashes, every double quote becomes backslash-quote, every
    other byte is kept. *)
Fixpoint escape_spec (t : string) : string :=
  match t with
  | EmptyString => EmptyString
  | String ch rest =>
      if Ascii.eqb ch backslash
      then String backslash (String backslash (escape_spec rest))
      else if Ascii.eqb ch dquote
      then String backslash (String dquote (escape_spec rest))
      else String ch (escape_spec rest)
  end.

(** A string holds neither a CR nor a LF. *)
Definition lineBreakFree (t : string) : bool :=
  negb (strings.ContainsAny t CRLF).

Definition isLineBreak (ch : ascii) : bool := Ascii.eqb ch CR || Ascii.eqb ch LF.

(** Reading a quoted string back, from just after its opening quote: an
    unescaped quote ends the string, a backslash makes the next byte
    literal, and a CR or a LF is not allowed inside the string, since a
    header line ends there.  The result is the decoded text and what
    follows the closing quote. *)
Fixpoint unquote (t : string) : option (string * string) :=
  match t with
  | EmptyString => None
  | String ch rest =>
      if Ascii.eqb ch dquote then Some (EmptyString, rest)
      else if isLineBreak ch then None
      else if Ascii.eqb ch backslash then
        match rest with
        | EmptyString => None
        | String ch' rest' =>
            if isLineBreak ch' then None
            else
              match unquote rest' with
              | Some (u, r) => Some (String ch' u, r)
              | None => None
              end
        end
      else
        match unquote rest with
        | Some (u, r) => Some (String ch u, r)
        | None => None
        end
  end.

Fixpoint stripPrefix (p t : string) : option string :=
  match p, t with
  | EmptyString, _ => Some t
  | String a p', String b t' => if Ascii.eqb a b then stripPrefix p' t' else None
  | String _ _, EmptyString => None
  end.

(** Decoding of a file part's Content-Disposition value: the field
    name, the file name and what follows the value. *)
Definition parseFileDisposition (h : string) : option (string * string * string) :=
  match stripPrefix ("form-data; name=" ++ quote) h with
  | None => None
  | Some h1 =>
      match unquote h1 with
      | None => None
      | Some (name, h2) =>
          match stripPrefix ("; filename=" ++ quote) h2 with
          | None => None
          | Some h3 =>
              match unquote h3 with
              | Some (filename, rest) => Some (name, filename, rest)
              | None => None
              end
          end
      end
  end.

(** Decoding of the bytes [createFormFile] writes for the first part:
    the delimiter line, then the Content-Disposition header line, whose
    value must end where the line ends. *)
Definition readFilePartHeader (boundary : string) (written : bytes)
  : option (string * string) :=
  match stripPrefix ("--" ++ boundary ++ CRLF ++ "Content-Disposition: ")
          (string_of written) with
  | None => None
  | Some value =>
      match parseFileDisposition value with
      | None => None
      | Some (name, filename, rest) =>
          match stripPrefix CRLF rest with
          | Some _ => Some (name, filename)
          | None => None
          end
      end
  end.

(** [bytes.HasPrefix] and [bytes.Contains]. *)
Fixpoint HasPrefix (l prefix : bytes) : bool :=
  match prefix, l with
  | [], _ => true
  | a :: prefix', b :: l' => Byte.eqb a b && HasPrefix l' prefix'
  | _ :: _, [] => false
  end.

Fixpoint Contains (l sub : bytes) : bool :=
  HasPrefix l sub ||
  match l with
  | [] => false
  | _ :: l' => Contains l' sub
  end.

(** A request body holds a form part for the field [name]. *)
Definition hasFormPart (name : string) (req : Request) : bool :=
  match Body req with
  | Some b =>
      Contains b
        (bytes_of ("Content-Disposition: form-data; name=" ++ quote ++ name ++ quote ++ CRLF))
  | None => false
  end.

(** The encoded upload, written out: the head of the file part, the
    content, the three form fields in the order type, side,
    issuing_country, and the closing boundary. *)
Definition fileHead (boundary disposition contentType : string) : string :=
  "--" ++ boundary ++ CRLF
  ++ "Content-Disposition: " ++ disposition ++ CRLF
  ++ "Content-Type: " ++ contentType ++ CRLF ++ CRLF.

Definition fieldHead (boundary name : string) : string :=
  CRLF ++ "--" ++ boundary ++ CRLF
  ++ "Content-Disposition: form-data; name=" ++ quote ++ name ++ quote ++ CRLF ++ CRLF.

Definition closing (boundary : string) : string :=
  CRLF ++ "--" ++ boundary ++ "--" ++ CRLF.

Definition uploadBody (boundary filename contentType : string) (content : bytes)
    (type side country : string) : bytes :=
  (bytes_of (fileHead boundary
               ("form-data; name=" ++ quote ++ "file" ++ quote
                ++ "; filename=" ++ quote ++ escape_spec filename ++ quote)
               contentType)
   ++ content
   ++ bytes_of (fieldHead boundary "type") ++ bytes_of type
   ++ bytes_of (fieldHead boundary "side") ++ bytes_of side
   ++ bytes_of (fieldHead boundary "issuing_country") ++ bytes_of country
   ++ bytes_of (closing boundary))%list.

Section Phases.

Context {rt : Runtime}.

(** The content type the file part declares: detected on the 512-byte
    buffer that received the first unread bytes. *)
Definition sniffed (file : io.ReadSeeker) : string :=
  DetectContentType (sniffBuffer (firstn 512 (io.unread file))).

(** The two phases the specification sees in [UploadDocument]: the
    encoding into the in-memory buffer (lines 120-141) and the sending
    of the request (lines 143-152). *)
Definition encodeUpload (dr : DocumentRequest) (filename : string)
  : multipart.Writer Buffer * io.ReadSeeker * outcome (option error) :=
  let writer := multipart.NewWriter ([] : Buffer) randomBoundary in
  match createFormFile writer "file" (File dr) filename with
  | (writer, file, _, Some e) => (writer, file, Returns (Some e))
  | (writer, file, None, None) =>
      (writer, file, Panics "invalid memory address or nil pointer dereference")
  | (writer, file, Some part, None) =>
  match multipart.Copy writer part file with
  | (writer, file, _, Some e) => (writer, file, Returns (Some e))
  | (writer, file, _, None) =>
  match multipart.WriteField writer "type" (dr_Type dr) with
  | (writer, Some e) => (writer, file, Returns (Some e))
  | (writer, None) =>
  match multipart.WriteField writer "side" (dr_Side dr) with
  | (writer, Some e) => (writer, file, Returns (Some e))
  | (writer, None) =>
  match multipart.WriteField writer "issuing_country" (dr_IssuingCountry dr) with
  | (writer, Some e) => (writer, file, Returns (Some e))
  | (writer, None) =>
  match multipart.Close writer with
  | (writer, err) => (writer, file, Returns err)
  end end end end end end.

Definition sendUpload (c : Client) (ctx : Context) (applicantID : string)
    (writer : multipart.Writer Buffer) (file : io.ReadSeeker) (net : list Request)
  : outcome (option Document * option error) * io.ReadSeeker * list Request :=
  match newRequest c "POST" ("/applicants/" ++ applicantID ++ "/documents")
          (Some (multipart.w writer)) with
  | (None, _) =>
      (Panics "invalid memory address or nil pointer dereference", file, net)
  | (Some req, Some e) => (Returns (None, Some e), file, net)
  | (Some req, None) =>
      let req := Header_Set req "Content-Type" (multipart.FormDataContentType writer) in
      let '(_, resp, err, net) := do c ctx req json_Document Document_zero net in
      (Returns (Some resp, err), file, net)
  end.

(** An encoding step of the upload fails with [e] and leaves the stream
    as [file]: the sniffing read, the seek back to the start, or any
    step of the encoding phase (the copy and the multipart writes
    included). *)
Inductive EncodingFails (dr : DocumentRequest) (filename : string)
  : io.ReadSeeker -> error -> Prop :=
| ReadFails (file : io.ReadSeeker) (data : bytes) (e : error) :
    io.Read (File dr) 512 = (file, data, Some e) ->
    EncodingFails dr filename file e
| SeekFails (file1 file : io.ReadSeeker) (data : bytes) (n : Z) (e : error) :
    io.Read (File dr) 512 = (file1, data, None) ->
    io.Seek file1 0 0 = (file, n, Some e) ->
    EncodingFails dr filename file e
| StepFails (writer : multipart.Writer Buffer) (file : io.ReadSeeker) (e : error) :
    encodeUpload dr filename = (writer, file, Returns (Some e)) ->
    EncodingFails dr filename file e.

(** The request an upload sends. *)
Definition uploadURL (c : Client) (applicantID : string) : string :=
  Endpoint c ++ "/applicants/" ++ applicantID ++ "/documents".

(** The bytes [createFormFile] writes into a new buffer. *)
Definition filePartWritten (boundary fieldname filename : string)
    (file : io.ReadSeeker) : bytes :=
  multipart.w
    (fst (fst (fst (createFormFile (multipart.NewWriter ([] : Buffer) boundary)
                      fieldname file filename)))).

(** The request for the first page of a listing. *)
Definition firstPage (c : Client) (applicantID : string) : Request :=
  {| Method := "GET";
     URL := Endpoint c ++ "/applicants/" ++ applicantID ++ "/documents";
     Header := textproto.make; Body := None |}.

(** The fetch or the decoding of the first page fails with [e]: the
    request cannot be built, the transport fails, the status is outside
    2xx, or the body of a 2xx response is malformed. *)
Inductive FirstPageFails (c : Client) (ctx : Context) (applicantID : string)
  : error -> Prop :=
| RequestFails (e : error) :
    http_invalid "GET" (URL (firstPage c applicantID)) = Some e ->
    FirstPageFails c ctx applicantID e
| TransportFails (e : error) :
    http_invalid "GET" (URL (firstPage c applicantID)) = None ->
    HTTPClient c ctx (firstPage c applicantID) = inl e ->
    FirstPageFails c ctx applicantID e
| StatusFails (resp : Response) :
    http_invalid "GET" (URL (firstPage c applicantID)) = None ->
    HTTPClient c ctx (firstPage c applicantID) = inr resp ->
    is2xx (StatusCode resp) = false ->
    FirstPageFails c ctx applicantID
      (ErrAPI (StatusCode resp) (json_errorMessage (RespBody resp)))
| DecodeFails (resp : Response) (d : Documents) (e : error) :
    http_invalid "GET" (URL (firstPage c applicantID)) = None ->
    HTTPClient c ctx (firstPage c applicantID) = inr resp ->
    is2xx (StatusCode resp) = true ->
    json_Documents (RespBody resp) Documents_zero = (d, Some e) ->
    FirstPageFails c ctx applicantID e.

End Phases.

(** The request a download sends. *)
Definition downloadRequest (c : Client) (applicantID id : string) : Request :=
  {| Method := "GET";
     URL := Endpoint c ++ "/applicants/" ++ applicantID ++ "/documents/" ++ id
            ++ "/download";
     Header := textproto.make; Body := None |}.

(** Sample inputs: an upload of an empty file, an applicant identifier
    holding a line feed, and the file part of [sampleRequest]. *)
Definition emptyRequest : DocumentRequest :=
  {| File := NewReader [];
     dr_Type := DocumentTypePassport;
     dr_Side := DocumentSideFront;
     dr_IssuingCountry := "GBR" |}.

Definition badApplicant : string := String LF "a1".

Definition sampleFilePart
  : multipart.Writer Buffer * io.ReadSeeker * option multipart.part * option error :=
  createFormFile (rt := sampleRuntime)
    (multipart.NewWriter ([] : Buffer) "7d3f0c") "file" (File sampleRequest) "id.png".

Definition sampleEncoding
  : multipart.Writer Buffer * io.ReadSeeker * outcome (option error) :=
  encodeUpload (rt := sampleRuntime) sampleRequest "id.png".

Definition sampleDocument : Document := withID "doc-1" Document_zero.

(** A file name holding a line break, and one holding quotes and a
    backslash. *)
Definition brokenName : string := "a" ++ CRLF ++ "b".

Definition quotedName : string :=
  "my " ++ quote ++ "id" ++ quote ++ " \ 1.png".

(** A server whose first page of documents is answered inside 2xx, with
    a link to a second page, and that rejects every other request. *)
Definition twoPages : Client :=
  {| Endpoint := "https://api.onfido.com/v2";
     HTTPClient := fun _ req =>
       if String.eqb (URL req) "https://api.onfido.com/v2/applicants/a1/documents"
       then inr {| StatusCode := 200; RespBody := bytes_of "doc-1";
                   NextPage := "/applicants/a1/documents?page=2" |}
       else inr {| StatusCode := 403; RespBody := bytes_of thingsWentBad;
                   NextPage := "" |} |}.

Definition secondPage : Request :=
  {| Method := "GET";
     URL := "https://api.onfido.com/v2/applicants/a1/documents?page=2";
     Header := textproto.make; Body := None |}.

Definition afterFirstPage : DocumentIter :=
  snd (fst (DocumentIter_Next (rt := sampleRuntime)
              (ListDocuments (rt := sampleRuntime) twoPages "a1") Background [])).

(** Writers over a [bytes.Buffer]: the last part carries no write error;
    the writer after some bytes were appended; an open part. *)
Definition sound (mw : multipart.Writer Buffer) : Prop :=
  match multipart.lastpart mw with
  | Some lp => multipart.we lp = None
  | None => True
  end.

Definition appended (mw : multipart.Writer Buffer) (d : bytes)
    (lp : option multipart.lastpart_state) (n : nat) : multipart.Writer Buffer :=
  {| multipart.w := (multipart.w mw ++ d)%list;
     multipart.boundary := multipart.boundary mw;
     multipart.lastpart := lp; multipart.created := n |}.

Definition opened (p : multipart.part) : option multipart.lastpart_state :=
  Some {| multipart.pid := p; multipart.closed := false; multipart.we := None |}.

(** ** Definitions for the further properties *)

(** The bytes that make [FormDataContentType] quote a boundary, and the
    boundary as the Content-Type header announces it. *)
Definition tspecials : string := "()<>@,;:\" ++ quote ++ "/[]?= ".

Definition announced (boundary : string) : string :=
  if strings.ContainsAny boundary tspecials
  then quote ++ boundary ++ quote else boundary.

Section Reach.

Context {rt : Runtime}.

(** The states a listing of [ListDocuments] goes through: the iterator
    it returns, and the iterator after any further call of [Next]. *)
Inductive Listed (c : Client) (applicantID : string) : DocumentIter -> Prop :=
| Listed_start : Listed c applicantID (ListDocuments c applicantID)
| Listed_next (it : DocumentIter) (ctx : Context) (net : list Request) :
    Listed c applicantID it ->
    Listed c applicantID (snd (fst (DocumentIter_Next it ctx net))).

(** The items are document pointers and the callback is the one of
    [ListDocuments]. *)
Definition typed (it : DocumentIter) : Prop :=
  iter.handler (iter_ it) = ListDocuments_handler
  /\ Forall (fun v => exists p, v = PtrDocument p) (iter.values (iter_ it)).

End Reach.

(** * Properties *)

(** ** Byte strings *)

Lemma append_assoc (a b c : string) : (a ++ b) ++ c = a ++ (b ++ c).
Proof. induction a as [|x a IH]; cbn; [reflexivity | now rewrite IH]. Qed.

Lemma append_nil_r (a : string) : a ++ "" = a.
Proof. induction a as [|x a IH]; cbn; [reflexivity | now rewrite IH]. Qed.

Lemma bytes_of_app (a b : string) :
  bytes_of (a ++ b) = (bytes_of a ++ bytes_of b)%list.
Proof.
  unfold bytes_of, list_byte_of_string.
  induction a as [|x a IH]; cbn; [reflexivity | now rewrite IH].
Qed.

Lemma len_app {A : Type} (l1 l2 : list A) : len (l1 ++ l2) = len l1 + len l2.
Proof. unfold len. rewrite length_app. lia. Qed.

Lemma len_nonneg {A : Type} (l : list A) : 0 <= len l.
Proof. unfold len. lia. Qed.

Lemma len_zero {A : Type} (l : list A) : len l <= 0 -> l = [].
Proof. destruct l; [reflexivity | unfold len; cbn; lia]. Qed.

(** ** The escaping (document.go, lines 82-86 and 106-109) *)

Lemma quoteEscaper_table (ch : ascii) :
  quoteEscaper ch =
    if Ascii.eqb ch backslash
    then Some (String backslash (String backslash EmptyString))
    else if Ascii.eqb ch dquote
    then Some (String backslash (String dquote EmptyString))
    else None.
Proof. reflexivity. Qed.

Lemma escapeQuotes_spec (t : string) : escapeQuotes t = escape_spec t.
Proof.
  unfold escapeQuotes.
  induction t as [|ch rest IH]; [reflexivity|].
  cbn [strings.Replace escape_spec].
  rewrite quoteEscaper_table, IH.
  destruct (Ascii.eqb ch backslash); [reflexivity|].
  destruct (Ascii.eqb ch dquote); reflexivity.
Qed.

Lemma lineBreakFree_cons (ch : ascii) (rest : string) :
  lineBreakFree (String ch rest) = true ->
  isLineBreak ch = false /\ lineBreakFree rest = true.
Proof.
  unfold lineBreakFree, isLineBreak.
  cbn [strings.ContainsAny strings.IndexByte CRLF].
  rewrite orb_false_r, negb_orb. intros H.
  apply andb_prop in H as [H1 H2]. split; [|exact H2].
  now apply negb_true_iff in H1.
Qed.

Lemma unquote_escape (t r : string) :
  lineBreakFree t = true ->
  unquote (escape_spec t ++ String dquote r) = Some (t, r).
Proof.
  induction t as [|ch rest IH]; [reflexivity|].
  intros Hl. apply lineBreakFree_cons in Hl as [Hc Hl].
  specialize (IH Hl). cbn [escape_spec].
  destruct (Ascii.eqb ch backslash) eqn:Hb.
  - apply Ascii.eqb_eq in Hb; subst ch.
    cbn [append unquote]. rewrite IH. reflexivity.
  - destruct (Ascii.eqb ch dquote) eqn:Hq.
    + apply Ascii.eqb_eq in Hq; subst ch.
      cbn [append unquote]. rewrite IH. reflexivity.
    + cbn [append unquote]. rewrite Hq, Hc, Hb, IH. reflexivity.
Qed.

Lemma backslash_not_dquote : backslash <> dquote.
Proof. discriminate. Qed.

Lemma escape_spec_injective (t u : string) :
  escape_spec t = escape_spec u -> t = u.
Proof.
  revert u. induction t as [|a t IH]; intros [|c u] E; cbn [escape_spec] in E.
  - reflexivity.
  - destruct (Ascii.eqb c backslash), (Ascii.eqb c dquote); discriminate.
  - destruct (Ascii.eqb a backslash), (Ascii.eqb a dquote); discriminate.
  - destruct (Ascii.eqb a backslash) eqn:Ha.
    + apply Ascii.eqb_eq in Ha. subst a.
      destruct (Ascii.eqb c backslash) eqn:Hc.
      * apply Ascii.eqb_eq in Hc. subst c.
        injection E as E. now rewrite (IH _ E).
      * destruct (Ascii.eqb c dquote).
        -- injection E as E _. now destruct (backslash_not_dquote).
        -- injection E as E _. subst c. now rewrite Ascii.eqb_refl in Hc.
    + destruct (Ascii.eqb a dquote) eqn:Ha'.
      * apply Ascii.eqb_eq in Ha'. subst a.
        destruct (Ascii.eqb c backslash) eqn:Hc.
        -- injection E as E _. now destruct (backslash_not_dquote).
        -- destruct (Ascii.eqb c dquote) eqn:Hc'.
           ++ apply Ascii.eqb_eq in Hc'. subst c.
              injection E as E. now rewrite (IH _ E).
           ++ injection E as E _. subst c. now rewrite Ascii.eqb_refl in Hc.
      * destruct (Ascii.eqb c backslash) eqn:Hc.
        -- injection E as E _. subst a. now rewrite Ascii.eqb_refl in Ha.
        -- destruct (Ascii.eqb c dquote).
           ++ injection E as E _. subst a. now rewrite Ascii.eqb_refl in Ha.
           ++ injection E as E1 E2. subst c. now rewrite (IH _ E2).
Qed.

Lemma escapeQuotes_injective (t u : string) :
  escapeQuotes t = escapeQuotes u -> t = u.
Proof. rewrite !escapeQuotes_spec. apply escape_spec_injective. Qed.

Lemma escapeQuotes_plain (t : string) :
  strings.ContainsAny t (String backslash quote) = false -> escapeQuotes t = t.
Proof.
  rewrite escapeQuotes_spec.
  induction t as [|ch rest IH]; [reflexivity|].
  cbn [strings.ContainsAny strings.IndexByte quote escape_spec].
  rewrite orb_false_r. intros Hc.
  apply orb_false_elim in Hc as [Hc1 Hc2].
  apply orb_false_elim in Hc1 as [Hb Hq].
  rewrite Hb, Hq, (IH Hc2). reflexivity.
Qed.

Lemma stripPrefix_app (p t : string) : stripPrefix p (p ++ t) = Some t.
Proof.
  induction p as [|a p IH]; [reflexivity|].
  cbn. rewrite Ascii.eqb_refl. exact IH.
Qed.

Lemma quote_app (t : string) : quote ++ t = String dquote t.
Proof. reflexivity. Qed.

Lemma parse_fileDisposition (fieldname filename rest : string) :
  lineBreakFree fieldname = true -> lineBreakFree filename = true ->
  parseFileDisposition (fileDisposition fieldname filename ++ rest)
  = Some (fieldname, filename, rest).
Proof.
  intros Hf Hn. unfold parseFileDisposition, fileDisposition.
  rewrite !escapeQuotes_spec, !append_assoc.
  rewrite <- (append_assoc "form-data; name=" quote), stripPrefix_app.
  rewrite quote_app, (unquote_escape _ _ Hf).
  rewrite <- (append_assoc "; filename=" quote), stripPrefix_app.
  rewrite quote_app, (unquote_escape _ _ Hn). reflexivity.
Qed.

Lemma string_of_bytes_of (t : string) : string_of (bytes_of t) = t.
Proof. apply string_of_list_byte_of_string. Qed.

Lemma readFilePartHeader_fileHead (boundary fieldname filename contentType : string) :
  lineBreakFree fieldname = true -> lineBreakFree filename = true ->
  readFilePartHeader boundary
    (bytes_of (fileHead boundary (fileDisposition fieldname filename) contentType))
  = Some (fieldname, filename).
Proof.
  intros Hf Hn. unfold readFilePartHeader, fileHead.
  rewrite string_of_bytes_of.
  replace ("--" ++ boundary ++ CRLF ++ "Content-Disposition: "
           ++ fileDisposition fieldname filename ++ CRLF
           ++ "Content-Type: " ++ contentType ++ CRLF ++ CRLF)
    with (("--" ++ boundary ++ CRLF ++ "Content-Disposition: ")
          ++ fileDisposition fieldname filename
          ++ CRLF ++ "Content-Type: " ++ contentType ++ CRLF ++ CRLF)
    by (now rewrite !append_assoc).
  rewrite stripPrefix_app, (parse_fileDisposition _ _ _ Hf Hn).
  now rewrite stripPrefix_app.
Qed.

Example escapeQuotes_sample :
  escapeQuotes (String dquote "a\b") = String backslash (String dquote "a\\b").
Proof. reflexivity. Qed.

(** ** The download sink (document.go, lines 70-80) *)

Lemma DocumentDownload_Writes_last (d : DocumentDownload) (calls : list bytes)
    (data : bytes) :
  DocumentDownload_Writes d (calls ++ [data])
  = {| Size := len data; Content := data |}.
Proof.
  unfold DocumentDownload_Writes. rewrite fold_left_app. reflexivity.
Qed.

(** C9.  Each [Write] replaces [Content] with the slice of that call,
    sets [Size] to its length and returns the length with a nil error;
    after any sequence of calls followed by one more, the sink holds the
    last slice only, and [Size] is the length of [Content]. *)
Theorem DocumentDownload_Write_keeps_last :
  (forall (d : DocumentDownload) (data : bytes),
     DocumentDownload_Write d data
     = ({| Size := len data; Content := data |}, len data, None))
  /\ (forall (d : DocumentDownload) (calls : list bytes) (data : bytes),
        let d' := DocumentDownload_Writes d (calls ++ [data]) in
        Content d' = data /\ Size d' = len (Content d')).
Proof.
  split.
  - reflexivity.
  - intros d calls data. cbv zeta.
    rewrite DocumentDownload_Writes_last. split; reflexivity.
Qed.

Example DocumentDownload_Write_discards :
  DocumentDownload_Writes {| Size := 0; Content := [] |}
    [bytes_of "hello "; bytes_of "world"]
  = {| Size := 5; Content := bytes_of "world" |}.
Proof. reflexivity. Qed.

(** ** The stream *)

Lemma Read_faulted (f : io.ReadSeeker) (n : nat) (e : error) :
  io.fault f = Some e -> io.Read f n = (io.step f, [], Some e).
Proof. intros Hf. unfold io.Read. now rewrite Hf. Qed.

Lemma Read_available (f : io.ReadSeeker) (n : nat) :
  io.fault f = None -> io.i f < len (io.s f) ->
  io.Read f n
  = ({| io.s := io.s f; io.i := io.i f + len (firstn n (io.unread f));
        io.faults := tl (io.faults f) |}, firstn n (io.unread f), None).
Proof.
  intros Hf Hi. unfold io.Read. rewrite Hf.
  destruct (len (io.s f) <=? io.i f) eqn:E; [apply Z.leb_le in E; lia | reflexivity].
Qed.

Lemma Seek_start (f : io.ReadSeeker) :
  io.fault f = None ->
  io.Seek f 0 0
  = ({| io.s := io.s f; io.i := 0; io.faults := tl (io.faults f) |}, 0, None).
Proof. intros Hf. unfold io.Seek. now rewrite Hf. Qed.

Lemma Seek_start_ok (f f' : io.ReadSeeker) (n : Z) :
  io.Seek f 0 0 = (f', n, None) -> io.i f' = 0 /\ io.s f' = io.s f.
Proof.
  unfold io.Seek. destruct (io.fault f); cbn; intros E; inversion E; subst.
  split; reflexivity.
Qed.

Lemma Read_keeps_content (f f' : io.ReadSeeker) (n : nat) (d : bytes)
    (err : option error) :
  io.Read f n = (f', d, err) -> io.s f' = io.s f.
Proof.
  unfold io.Read. destruct (io.fault f).
  - intros E; inversion E; reflexivity.
  - destruct (len (io.s f) <=? io.i f); intros E; inversion E; reflexivity.
Qed.

(** ** The multipart writer *)

Section Writer.

Context {W : Type} `{io.Writer W}.

Lemma CreatePart_opens (mw mw' : multipart.Writer W) (h : textproto.MIMEHeader)
    (p : multipart.part) :
  multipart.CreatePart mw h = (mw', Some p, None) ->
  multipart.lastpart mw'
  = Some {| multipart.pid := p; multipart.closed := false; multipart.we := None |}.
Proof.
  unfold multipart.CreatePart.
  destruct (multipart.closeLast mw) as [mw1 [e|]]; [discriminate|].
  destruct (io.Write (multipart.w mw1) (bytes_of (multipart.partHead mw h)))
    as [sink [e|]]; [discriminate|].
  intros E; inversion E; subst. reflexivity.
Qed.

Lemma CreatePart_result (mw mw' : multipart.Writer W) (h : textproto.MIMEHeader)
    (p : option multipart.part) :
  multipart.CreatePart mw h = (mw', p, None) -> p <> None.
Proof.
  unfold multipart.CreatePart.
  destruct (multipart.closeLast mw) as [mw1 [e|]]; [discriminate|].
  destruct (io.Write (multipart.w mw1) (bytes_of (multipart.partHead mw h)))
    as [sink [e|]]; [discriminate|].
  intros E; inversion E; subst. discriminate.
Qed.

End Writer.

(** Over a [bytes.Buffer] no step of the writer fails, as long as parts
    are written while they are open. *)

Lemma CreatePart_Buffer (mw : multipart.Writer Buffer) (h : textproto.MIMEHeader) :
  sound mw ->
  multipart.CreatePart mw h
  = (appended mw (bytes_of (multipart.partHead mw h))
       (opened (multipart.created mw)) (S (multipart.created mw)),
     Some (multipart.created mw), None).
Proof.
  unfold sound, multipart.CreatePart, multipart.closeLast, appended, opened.
  destruct mw as [sink b [lp|] n]; cbn.
  - intros ->. reflexivity.
  - reflexivity.
Qed.

Lemma part_Write_Buffer (mw : multipart.Writer Buffer) (p : multipart.part)
    (d : bytes) :
  multipart.lastpart mw = opened p ->
  multipart.part_Write mw p d
  = (appended mw d (opened p) (multipart.created mw), len d, None).
Proof.
  unfold multipart.part_Write, appended, opened. intros ->. cbn.
  rewrite Nat.eqb_refl. reflexivity.
Qed.

Lemma appended_appended (mw : multipart.Writer Buffer) (d1 d2 : bytes)
    (lp1 lp2 : option multipart.lastpart_state) (n1 n2 : nat) :
  appended (appended mw d1 lp1 n1) d2 lp2 n2 = appended mw (d1 ++ d2)%list lp2 n2.
Proof. unfold appended. cbn. now rewrite app_assoc. Qed.

Lemma WriteField_Buffer (mw : multipart.Writer Buffer) (fieldname value : string) :
  sound mw ->
  multipart.WriteField mw fieldname value
  = (appended mw
       (bytes_of
          (multipart.partHead mw
             (textproto.Set_ textproto.make "Content-Disposition"
                ("form-data; name=" ++ quote ++ escapeQuotes fieldname ++ quote)))
        ++ bytes_of value)%list
       (opened (multipart.created mw)) (S (multipart.created mw)), None).
Proof.
  intros Hs. unfold multipart.WriteField, multipart.CreateFormField.
  rewrite (CreatePart_Buffer _ _ Hs).
  rewrite part_Write_Buffer by reflexivity.
  now rewrite appended_appended.
Qed.

Lemma Close_Buffer (mw : multipart.Writer Buffer) :
  sound mw ->
  multipart.Close mw
  = (appended mw (bytes_of (closing (multipart.boundary mw))) None
       (multipart.created mw), None).
Proof.
  unfold sound, multipart.Close, multipart.closeLast, appended, closing.
  destruct mw as [sink b [lp|] n]; cbn.
  - intros ->. reflexivity.
  - reflexivity.
Qed.

Lemma Copy_Buffer (mw : multipart.Writer Buffer) (p : multipart.part)
    (f : io.ReadSeeker) :
  multipart.lastpart mw = opened p -> io.fault f = None -> io.i f = 0 ->
  multipart.Copy mw p f
  = (appended mw (io.s f) (opened p) (multipart.created mw),
     {| io.s := io.s f; io.i := len (io.s f); io.faults := tl (io.faults f) |},
     len (io.s f), None).
Proof.
  intros Hp Hf Hi. unfold multipart.Copy. rewrite Hf, Hi.
  destruct (len (io.s f) <=? 0) eqn:E.
  - apply Z.leb_le, len_zero in E. rewrite E.
    unfold appended, io.step. rewrite app_nil_r, Hi, <- Hp, E.
    destruct mw; reflexivity.
  - rewrite part_Write_Buffer by exact Hp.
    unfold io.unread. rewrite Hi. reflexivity.
Qed.

(** ** The file part (document.go, lines 88-115) *)

Section FilePart.

Context {rt : Runtime}.

Lemma createFormFile_rewinds {W : Type} `{io.Writer W}
    (writer w1 : multipart.Writer W) (fieldname filename : string)
    (file f1 : io.ReadSeeker) (p : option multipart.part) :
  createFormFile writer fieldname file filename = (w1, f1, p, None) ->
  io.i f1 = 0 /\ io.s f1 = io.s file
  /\ exists q, p = Some q /\ multipart.lastpart w1 = opened q.
Proof.
  unfold createFormFile.
  destruct (io.Read file 512) as [[fr data] [e|]] eqn:Er; [discriminate|].
  destruct (io.Seek fr 0 0) as [[fs n] [e|]] eqn:Es; [discriminate|].
  destruct (multipart.CreatePart writer _) as [[wc pc] ec] eqn:Ec.
  intros E; inversion E; subst.
  destruct (Seek_start_ok _ _ _ Es) as [Hi Hs].
  rewrite Hi, Hs, (Read_keeps_content _ _ _ _ _ Er).
  repeat split.
  destruct p as [q|]; [|now apply CreatePart_result in Ec].
  exists q. split; [reflexivity|]. exact (CreatePart_opens _ _ _ _ Ec).
Qed.

(** C2.  When [createFormFile] succeeds, the stream it hands back stands
    at offset 0 with its content untouched, so all of the content is
    unread; the copy that follows, unless the stream fails, appends the
    complete content to the body and reports its length. *)
Theorem sniffing_does_not_consume (writer w1 : multipart.Writer Buffer)
    (fieldname filename : string) (file f1 : io.ReadSeeker) (p : multipart.part) :
  createFormFile writer fieldname file filename = (w1, f1, Some p, None) ->
  io.i f1 = 0
  /\ io.s f1 = io.s file
  /\ io.unread f1 = io.s file
  /\ (io.fault f1 = None ->
      multipart.Copy w1 p f1
      = (appended w1 (io.s file) (opened p) (multipart.created w1),
         {| io.s := io.s file; io.i := len (io.s file);
            io.faults := tl (io.faults f1) |},
         len (io.s file), None)).
Proof.
  intros Hc.
  destruct (createFormFile_rewinds _ _ _ _ _ _ _ Hc) as (Hi & Hs & q & Hq & Hl).
  injection Hq as <-.
  repeat split; try assumption.
  - unfold io.unread. rewrite Hi, Hs. reflexivity.
  - intros Hf. rewrite (Copy_Buffer _ _ _ Hl Hf Hi), Hs. reflexivity.
Qed.

End FilePart.

(** ** The upload (document.go, lines 117-153) *)

Section Upload.

Context {rt : Runtime}.

(** [UploadDocument] is the encoding followed by the sending. *)
Lemma UploadDocument_phases (c : Client) (ctx : Context) (applicantID : string)
    (dr : DocumentRequest) (filename : string) (net : list Request) :
  UploadDocument c ctx applicantID dr filename net
  = match encodeUpload dr filename with
    | (_, file, Panics msg) => (Panics msg, file, net)
    | (_, file, Returns (Some e)) => (Returns (None, Some e), file, net)
    | (writer, file, Returns None) => sendUpload c ctx applicantID writer file net
    end.
Proof.
  unfold UploadDocument, encodeUpload, sendUpload.
  destruct (createFormFile _ "file" (File dr) filename) as [[[w1 f1] [p|]] [e|]];
    try reflexivity.
  destruct (multipart.Copy w1 p f1) as [[[w2 f2] n] [e|]]; [reflexivity|].
  destruct (multipart.WriteField w2 "type" _) as [w3 [e|]]; [reflexivity|].
  destruct (multipart.WriteField w3 "side" _) as [w4 [e|]]; [reflexivity|].
  destruct (multipart.WriteField w4 "issuing_country" _) as [w5 [e|]]; [reflexivity|].
  destruct (multipart.Close w5) as [w6 [e|]]; [reflexivity|].
  destruct (newRequest c "POST" _ _) as [[req|] [e|]]; try reflexivity.
Qed.

Lemma encodeUpload_read_fails (dr : DocumentRequest) (filename : string)
    (file : io.ReadSeeker) (data : bytes) (e : error) :
  io.Read (File dr) 512 = (file, data, Some e) ->
  encodeUpload dr filename
  = (multipart.NewWriter ([] : Buffer) randomBoundary, file, Returns (Some e)).
Proof.
  intros Hr. unfold encodeUpload, createFormFile. rewrite Hr. reflexivity.
Qed.

Lemma encodeUpload_seek_fails (dr : DocumentRequest) (filename : string)
    (file1 file : io.ReadSeeker) (data : bytes) (n : Z) (e : error) :
  io.Read (File dr) 512 = (file1, data, None) ->
  io.Seek file1 0 0 = (file, n, Some e) ->
  encodeUpload dr filename
  = (multipart.NewWriter ([] : Buffer) randomBoundary, file, Returns (Some e)).
Proof.
  intros Hr Hs. unfold encodeUpload, createFormFile. rewrite Hr, Hs. reflexivity.
Qed.

(** C8.  If the sniffing read, the seek or any other step of the
    encoding fails with [e], [UploadDocument] returns a nil document
    with [e], and the log of requests is the one it was given: nothing
    was sent. *)
Theorem encoding_failure_sends_nothing (c : Client) (ctx : Context)
    (applicantID : string) (dr : DocumentRequest) (filename : string)
    (net : list Request) (file : io.ReadSeeker) (e : error) :
  EncodingFails dr filename file e ->
  UploadDocument c ctx applicantID dr filename net
  = (Returns (None, Some e), file, net).
Proof.
  intros Hf. rewrite UploadDocument_phases.
  destruct Hf as [file data e Hr | file1 file data n e Hr Hs | writer file e He].
  - now rewrite (encodeUpload_read_fails _ _ _ _ _ Hr).
  - now rewrite (encodeUpload_seek_fails _ _ _ _ _ _ _ Hr Hs).
  - now rewrite He.
Qed.

(** C10.  Once the encoding has succeeded, if the construction of the
    request fails and returns a nil request, [UploadDocument] panics on
    the nil request at the header-set step; the construction error is
    not returned, and nothing is sent. *)
Theorem nil_request_is_dereferenced (c : Client) (ctx : Context)
    (applicantID : string) (dr : DocumentRequest) (filename : string)
    (net : list Request) (writer : multipart.Writer Buffer)
    (file : io.ReadSeeker) (e : error) :
  encodeUpload dr filename = (writer, file, Returns None) ->
  newRequest c "POST" ("/applicants/" ++ applicantID ++ "/documents")
    (Some (multipart.w writer)) = (None, Some e) ->
  UploadDocument c ctx applicantID dr filename net
  = (Panics "invalid memory address or nil pointer dereference", file, net)
  /\ UploadDocument c ctx applicantID dr filename net
     <> (Returns (None, Some e), file, net).
Proof.
  intros He Hr. rewrite UploadDocument_phases, He.
  unfold sendUpload. rewrite Hr. split; [reflexivity | discriminate].
Qed.

End Upload.

(** ** The encoded body *)

Lemma partHead_file (mw : multipart.Writer Buffer) (d ct : string) :
  multipart.lastpart mw = None ->
  multipart.partHead mw
    (textproto.Set_ (textproto.Set_ textproto.make "Content-Disposition" d)
       "Content-Type" ct)
  = fileHead (multipart.boundary mw) d ct.
Proof.
  intros Hl. unfold multipart.partHead, multipart.headerLines, fileHead.
  rewrite Hl. cbn [textproto.Set_ textproto.make].
  change (String.eqb "Content-Type" "Content-Disposition") with false.
  change (String.ltb "Content-Type" "Content-Disposition") with false.
  cbn [fold_right fst snd].
  rewrite !append_assoc. reflexivity.
Qed.

Lemma partHead_field (mw : multipart.Writer Buffer) (lp : multipart.lastpart_state)
    (name : string) :
  multipart.lastpart mw = Some lp ->
  escapeQuotes name = name ->
  multipart.partHead mw
    (textproto.Set_ textproto.make "Content-Disposition"
       ("form-data; name=" ++ quote ++ escapeQuotes name ++ quote))
  = fieldHead (multipart.boundary mw) name.
Proof.
  intros Hl Hn. unfold multipart.partHead, multipart.headerLines, fieldHead.
  rewrite Hl, Hn. cbn [textproto.Set_ textproto.make fold_right fst snd].
  rewrite !append_assoc. reflexivity.
Qed.

Section Body.

Context {rt : Runtime}.

Lemma createFormFile_healthy (writer : multipart.Writer Buffer)
    (fieldname filename : string) (file : io.ReadSeeker) :
  sound writer -> io.faults file = [] -> io.i file < len (io.s file) ->
  createFormFile writer fieldname file filename
  = (appended writer
       (bytes_of
          (multipart.partHead writer
             (textproto.Set_
                (textproto.Set_ textproto.make "Content-Disposition"
                   (fileDisposition fieldname filename))
                "Content-Type" (sniffed file))))
       (opened (multipart.created writer)) (S (multipart.created writer)),
     {| io.s := io.s file; io.i := 0; io.faults := [] |},
     Some (multipart.created writer), None).
Proof.
  intros Hs Hf Hi. unfold createFormFile.
  assert (Hn : io.fault file = None) by (unfold io.fault; now rewrite Hf).
  rewrite (Read_available _ _ Hn Hi).
  rewrite Hf. cbv beta iota zeta.
  rewrite Seek_start by reflexivity.
  cbv beta iota zeta. cbn [io.s io.faults tl].
  rewrite (CreatePart_Buffer _ _ Hs). reflexivity.
Qed.

Lemma encodeUpload_healthy (dr : DocumentRequest) (filename : string) :
  io.faults (File dr) = [] -> io.i (File dr) < len (io.s (File dr)) ->
  encodeUpload dr filename
  = ({| multipart.w :=
          uploadBody randomBoundary filename (sniffed (File dr)) (io.s (File dr))
            (dr_Type dr) (dr_Side dr) (dr_IssuingCountry dr);
        multipart.boundary := randomBoundary;
        multipart.lastpart := None;
        multipart.created := 4 |},
     {| io.s := io.s (File dr); io.i := len (io.s (File dr)); io.faults := [] |},
     Returns None).
Proof.
  intros Hf Hi. unfold encodeUpload.
  rewrite createFormFile_healthy by (exact I || assumption).
  rewrite partHead_file by reflexivity.
  rewrite Copy_Buffer by reflexivity.
  rewrite appended_appended.
  rewrite WriteField_Buffer by reflexivity.
  erewrite (partHead_field _ _ "type"); [| reflexivity | reflexivity].
  rewrite appended_appended.
  rewrite WriteField_Buffer by reflexivity.
  erewrite (partHead_field _ _ "side"); [| reflexivity | reflexivity].
  rewrite appended_appended.
  rewrite WriteField_Buffer by reflexivity.
  erewrite (partHead_field _ _ "issuing_country"); [| reflexivity | reflexivity].
  rewrite appended_appended.
  rewrite Close_Buffer by reflexivity.
  rewrite appended_appended.
  unfold appended, uploadBody, fileDisposition, multipart.NewWriter.
  cbn [multipart.w multipart.boundary multipart.created io.s io.faults tl app].
  rewrite <- !app_assoc.
  change (escapeQuotes "file") with "file".
  rewrite escapeQuotes_spec. reflexivity.
Qed.

End Body.

(** ** The header line of the file part *)

Section HeaderLine.

Context {rt : Runtime}.

Lemma filePartWritten_healthy (boundary fieldname filename : string)
    (file : io.ReadSeeker) :
  io.faults file = [] -> io.i file < len (io.s file) ->
  filePartWritten boundary fieldname filename file
  = bytes_of (fileHead boundary (fileDisposition fieldname filename) (sniffed file)).
Proof.
  intros Hf Hi. unfold filePartWritten.
  rewrite createFormFile_healthy; [| exact I | exact Hf | exact Hi].
  cbn [fst]. rewrite partHead_file by reflexivity. reflexivity.
Qed.

(** C3, as the code has it.  For a stream that can be read,
    [createFormFile] writes into the body the Content-Disposition line
    of the file part with the field name and the file name escaped byte
    by byte, a backslash doubled and a double quote preceded by a
    backslash; the escaping is injective; and when neither name holds a
    CR or a LF, decoding the written line recovers both names
    exactly. *)
Theorem file_part_header_round_trip (boundary fieldname filename : string)
    (file : io.ReadSeeker) :
  io.faults file = [] -> io.i file < len (io.s file) ->
  filePartWritten boundary fieldname filename file
  = bytes_of
      (fileHead boundary
         ("form-data; name=" ++ quote ++ escape_spec fieldname ++ quote
          ++ "; filename=" ++ quote ++ escape_spec filename ++ quote)
         (sniffed file))
  /\ (forall other, escapeQuotes other = escapeQuotes fieldname -> other = fieldname)
  /\ (forall other, escapeQuotes other = escapeQuotes filename -> other = filename)
  /\ (lineBreakFree fieldname = true -> lineBreakFree filename = true ->
      readFilePartHeader boundary (filePartWritten boundary fieldname filename file)
      = Some (fieldname, filename)).
Proof.
  intros Hf Hi. rewrite (filePartWritten_healthy _ _ _ _ Hf Hi).
  repeat split.
  - unfold fileDisposition. now rewrite !escapeQuotes_spec.
  - intros other. apply escapeQuotes_injective.
  - intros other. apply escapeQuotes_injective.
  - intros Hn Hm. now apply readFilePartHeader_fileHead.
Qed.

End HeaderLine.

(** C3, as stated, fails: for a file name holding a CR LF,
    [createFormFile] succeeds and the header line it wrote does not
    decode, to the original names or at all. *)
Lemma line_break_cuts_the_header :
  snd (createFormFile (rt := sampleRuntime)
         (multipart.NewWriter ([] : Buffer) "7d3f0c") "file"
         (NewReader (bytes_of "test")) brokenName) = None
  /\ readFilePartHeader "7d3f0c"
       (filePartWritten (rt := sampleRuntime) "7d3f0c" "file" brokenName
          (NewReader (bytes_of "test")))
     = None
  /\ readFilePartHeader "7d3f0c"
       (filePartWritten (rt := sampleRuntime) "7d3f0c" "file" brokenName
          (NewReader (bytes_of "test")))
     <> Some ("file", brokenName).
Proof. vm_compute. repeat split. discriminate. Qed.

Section Sending.

Context {rt : Runtime}.

Lemma do_logs {A : Type} (c : Client) (ctx : Context) (req : Request)
    (decode : bytes -> A -> A * option error) (v : A) (net : list Request) :
  snd (do c ctx req decode v net) = (net ++ [req])%list.
Proof.
  unfold do. destruct (HTTPClient c ctx req) as [e|resp]; [reflexivity|].
  destruct (is2xx (StatusCode resp)); [|reflexivity].
  destruct (decode (RespBody resp) v); reflexivity.
Qed.

(** C1, as the code has it.  For a stream without failures that has
    unread bytes and a URL the request constructor accepts, the upload
    sends exactly one request, a POST whose body is the file part with
    the whole content followed by the three form fields type, side and
    issuing_country, in this order, each with its value, empty or not,
    and the closing boundary. *)
Theorem upload_writes_all_fields (c : Client) (ctx : Context)
    (applicantID : string) (dr : DocumentRequest) (filename : string)
    (net : list Request) :
  io.faults (File dr) = [] ->
  io.i (File dr) < len (io.s (File dr)) ->
  http_invalid "POST" (uploadURL c applicantID) = None ->
  exists req,
    snd (UploadDocument c ctx applicantID dr filename net) = (net ++ [req])%list
    /\ Method req = "POST"
    /\ URL req = uploadURL c applicantID
    /\ Body req
       = Some (uploadBody randomBoundary filename (sniffed (File dr))
                 (io.s (File dr)) (dr_Type dr) (dr_Side dr) (dr_IssuingCountry dr)).
Proof.
  intros Hf Hi Hv.
  rewrite UploadDocument_phases, (encodeUpload_healthy _ _ Hf Hi).
  unfold sendUpload, newRequest. unfold uploadURL in *. rewrite Hv.
  cbn [multipart.w].
  match goal with
  | |- context [do c ctx ?r ?d ?v net] =>
      exists r; pose proof (do_logs c ctx r d v net) as Hl;
      destruct (do c ctx r d v net) as [[[r0 d0] e0] n0]
  end.
  cbn [snd] in *. repeat split. exact Hl.
Qed.

End Sending.

(** C1, as stated, fails: a request whose side and issuing country are
    empty still sends a body with a form part for each of them. *)
Lemma empty_fields_are_still_written :
  dr_Side sampleRequest = ""
  /\ dr_IssuingCountry sampleRequest = ""
  /\ map (fun req => (hasFormPart "side" req, hasFormPart "issuing_country" req))
       (snd (UploadDocument (rt := sampleRuntime) forbidden Background "a1"
               sampleRequest "id.png" []))
     = [(true, true)].
Proof. vm_compute. repeat split. Qed.

(** ** Responses outside 2xx *)

Section Responses.

Context {rt : Runtime}.

Lemma do_rejected {A : Type} (c : Client) (ctx : Context) (req : Request)
    (decode : bytes -> A -> A * option error) (v : A) (net : list Request)
    (resp : Response) :
  HTTPClient c ctx req = inr resp -> is2xx (StatusCode resp) = false ->
  do c ctx req decode v net
  = (None, v,
     Some (ErrAPI (StatusCode resp) (json_errorMessage (RespBody resp))),
     (net ++ [req])%list).
Proof. intros Hr Hs. unfold do. now rewrite Hr, Hs. Qed.

Lemma do_accepted {A : Type} (c : Client) (ctx : Context) (req : Request)
    (decode : bytes -> A -> A * option error) (v : A) (net : list Request)
    (resp : Response) :
  HTTPClient c ctx req = inr resp -> is2xx (StatusCode resp) = true ->
  do c ctx req decode v net
  = (Some resp, fst (decode (RespBody resp) v), snd (decode (RespBody resp) v),
     (net ++ [req])%list).
Proof.
  intros Hr Hs. unfold do. rewrite Hr, Hs.
  now destruct (decode (RespBody resp) v).
Qed.

Lemma log_grows {A : Type} (l : list A) (x : A) : l <> (l ++ [x])%list.
Proof.
  intros E. apply (f_equal (@length A)) in E.
  rewrite length_app in E. cbn in E. lia.
Qed.

Lemma log_last {A : Type} (l : list A) (x y : A) :
  (l ++ [x])%list = (l ++ [y])%list -> x = y.
Proof. intros E. apply app_inv_head in E. now injection E. Qed.

(** A call of [do] that logged [req], answered outside 2xx, fails with
    the API error and leaves its target as it was. *)
Lemma do_sent_rejected {A : Type} (c : Client) (ctx : Context) (r req : Request)
    (decode : bytes -> A -> A * option error) (v v' : A) (net : list Request)
    (x : option Response) (e : option error) (resp : Response) :
  do c ctx r decode v net = (x, v', e, (net ++ [req])%list) ->
  HTTPClient c ctx req = inr resp -> is2xx (StatusCode resp) = false ->
  x = None /\ v' = v
  /\ e = Some (ErrAPI (StatusCode resp) (json_errorMessage (RespBody resp))).
Proof.
  intros Hd Ht Hs.
  pose proof (do_logs c ctx r decode v net) as Hl. rewrite Hd in Hl.
  cbn [snd] in Hl. apply log_last in Hl. subst r.
  rewrite (do_rejected _ _ _ _ _ _ _ Ht Hs) in Hd.
  inversion Hd; subst. now repeat split.
Qed.

Lemma UploadDocument_rejected (c : Client) (ctx : Context) (applicantID : string)
    (dr : DocumentRequest) (filename : string) (net : list Request)
    (out : outcome (option Document * option error)) (file : io.ReadSeeker)
    (req : Request) (resp : Response) :
  HTTPClient c ctx req = inr resp -> is2xx (StatusCode resp) = false ->
  UploadDocument c ctx applicantID dr filename net
  = (out, file, (net ++ [req])%list) ->
  out = Returns (Some Document_zero,
                 Some (ErrAPI (StatusCode resp) (json_errorMessage (RespBody resp)))).
Proof.
  intros Ht Hs E. rewrite UploadDocument_phases in E.
  destruct (encodeUpload dr filename) as [[writer f] [[e|]|msg]];
    try (inversion E; now destruct (log_grows net req)).
  unfold sendUpload in E.
  destruct (newRequest c "POST" _ _) as [[r|] [e|]];
    try (inversion E; now destruct (log_grows net req)).
  match type of E with
  | context [do c ctx ?r0 ?d ?v net] =>
      destruct (do c ctx r0 d v net) as [[[x v'] e'] n] eqn:Hd
  end.
  inversion E; subst.
  destruct (do_sent_rejected _ _ _ _ _ _ _ _ _ _ _ Hd Ht Hs) as (_ & -> & ->).
  reflexivity.
Qed.

Lemma GetDocument_rejected (c : Client) (ctx : Context) (applicantID id : string)
    (net : list Request) (out : outcome (option Document * option error))
    (req : Request) (resp : Response) :
  HTTPClient c ctx req = inr resp -> is2xx (StatusCode resp) = false ->
  GetDocument c ctx applicantID id net = (out, (net ++ [req])%list) ->
  out = Returns (Some Document_zero,
                 Some (ErrAPI (StatusCode resp) (json_errorMessage (RespBody resp)))).
Proof.
  intros Ht Hs E. unfold GetDocument in E.
  destruct (newRequest c "GET" _ None) as [[r|] [e|]];
    try (inversion E; now destruct (log_grows net req)).
  match type of E with
  | context [do c ctx ?r0 ?d ?v net] =>
      destruct (do c ctx r0 d v net) as [[[x v'] e'] n] eqn:Hd
  end.
  inversion E; subst.
  destruct (do_sent_rejected _ _ _ _ _ _ _ _ _ _ _ Hd Ht Hs) as (_ & -> & ->).
  reflexivity.
Qed.

Lemma DownloadDocument_rejected (c : Client) (ctx : Context)
    (applicantID id : string) (net : list Request)
    (out : outcome (option DocumentDownload * option error))
    (req : Request) (resp : Response) :
  HTTPClient c ctx req = inr resp -> is2xx (StatusCode resp) = false ->
  DownloadDocument c ctx applicantID id net = (out, (net ++ [req])%list) ->
  out = Returns (Some {| Size := 0; Content := [] |},
                 Some (ErrAPI (StatusCode resp) (json_errorMessage (RespBody resp)))).
Proof.
  intros Ht Hs E. unfold DownloadDocument, download in E.
  destruct (newRequest c "GET" _ None) as [[r|] [e|]];
    try (inversion E; now destruct (log_grows net req)).
  match type of E with
  | context [do c ctx ?r0 ?d ?v net] =>
      destruct (do c ctx r0 d v net) as [[[x v'] e'] n] eqn:Hd
  end.
  inversion E; subst.
  destruct (do_sent_rejected _ _ _ _ _ _ _ _ _ _ _ Hd Ht Hs) as (_ & -> & ->).
  reflexivity.
Qed.

Lemma ListDocuments_start (c : Client) (applicantID : string) (ctx : Context)
    (net : list Request) :
  DocumentIter_Next (ListDocuments c applicantID) ctx net
  = match http_invalid "GET" (URL (firstPage c applicantID)) with
    | Some e =>
        (false, {| iter_ := iter.fail (iter_ (ListDocuments c applicantID)) e |}, net)
    | None =>
        let '(resp, body, e, net) :=
          do c ctx (firstPage c applicantID)
            (fun (b : bytes) (_ : bytes) => (b, @None error)) [] net in
        match e with
        | Some e =>
            (false,
             {| iter_ := iter.fail (iter_ (ListDocuments c applicantID)) e |}, net)
        | None =>
            match ListDocuments_handler body with
            | (_, Some e) =>
                (false,
                 {| iter_ := iter.fail (iter_ (ListDocuments c applicantID)) e |},
                 net)
            | (items, None) =>
                (negb (Nat.eqb (length items) 0),
                 {| iter_ :=
                      {| iter.c := c;
                         iter.nextURL := match resp with
                                         | Some r => NextPage r
                                         | None => ""
                                         end;
                         iter.handler := ListDocuments_handler;
                         iter.values := items; iter.index := O;
                         iter.err := None |} |}, net)
            end
        end
    end.
Proof.
  unfold DocumentIter_Next, ListDocuments, iter.Next, newRequest, firstPage.
  cbn [iter_ iter.err iter.index iter.values iter.nextURL iter.c iter.handler
       length Nat.ltb Nat.leb URL].
  change (String.eqb ("/applicants/" ++ applicantID ++ "/documents") "") with false.
  cbv iota.
  destruct (http_invalid "GET" _) as [e|]; [reflexivity|].
  match goal with
  | |- context [do c ctx ?r ?d ?v net] =>
      destruct (do c ctx r d v net) as [[[resp body] [e|]] net']; [reflexivity|]
  end.
  destruct (ListDocuments_handler body) as [items [e|]]; reflexivity.
Qed.

Lemma Next_failed (it : iter.t) (e : error) (ctx : Context) (net : list Request) :
  iter.err it = Some e ->
  DocumentIter_Next {| iter_ := it |} ctx net = (false, {| iter_ := it |}, net).
Proof.
  intros He. unfold DocumentIter_Next, iter.Next. cbn [iter_]. now rewrite He.
Qed.

End Responses.

(** ** The claims on responses and on the iterator *)

Section Results.

Context {rt : Runtime}.

Lemma Next_rejected (it it' : DocumentIter) (ctx : Context) (net : list Request)
    (ok : bool) (req : Request) (resp : Response) :
  HTTPClient (iter.c (iter_ it)) ctx req = inr resp ->
  is2xx (StatusCode resp) = false ->
  DocumentIter_Next it ctx net = (ok, it', (net ++ [req])%list) ->
  ok = false
  /\ it' = {| iter_ :=
               iter.fail (iter_ it)
                 (ErrAPI (StatusCode resp) (json_errorMessage (RespBody resp))) |}.
Proof.
  intros Ht Hs E. unfold DocumentIter_Next, iter.Next in E.
  destruct (iter.err (iter_ it));
    [inversion E; now destruct (log_grows net req)|].
  destruct (S (iter.index (iter_ it)) <? length (iter.values (iter_ it)))%nat;
    [inversion E; now destruct (log_grows net req)|].
  destruct (String.eqb (iter.nextURL (iter_ it)) "");
    [inversion E; now destruct (log_grows net req)|].
  destruct (newRequest (iter.c (iter_ it)) "GET" (iter.nextURL (iter_ it)) None)
    as [[r|] [e|]]; try (inversion E; now destruct (log_grows net req)).
  match type of E with
  | context [do ?c0 ctx ?r0 ?d ?v net] =>
      destruct (do c0 ctx r0 d v net) as [[[x body] e'] n] eqn:Hd
  end.
  assert (Hn : n = (net ++ [req])%list).
  { destruct e' as [e'|]; [now inversion E|].
    destruct (iter.handler (iter_ it) body) as [items [e|]]; now inversion E. }
  subst n.
  destruct (do_sent_rejected _ _ _ _ _ _ _ _ _ _ _ Hd Ht Hs) as (_ & _ & ->).
  inversion E; subst. now split.
Qed.

(** C4.  Whenever the request a call sends is answered with a status
    outside 2xx, the call fails with the API error of that status and
    no result is filled in from the body: upload and get return the
    zero document, download an empty blob, and an advance of a listing,
    on the first page or on a later one, is false, records the error,
    keeps the items it had and leaves the iterator Failed for good. *)
Theorem non_2xx_never_succeeds (c : Client) (ctx : Context) (net : list Request)
    (req : Request) (resp : Response) :
  HTTPClient c ctx req = inr resp ->
  is2xx (StatusCode resp) = false ->
  let e := ErrAPI (StatusCode resp) (json_errorMessage (RespBody resp)) in
  (forall applicantID dr filename out file,
     UploadDocument c ctx applicantID dr filename net
     = (out, file, (net ++ [req])%list) ->
     out = Returns (Some Document_zero, Some e))
  /\ (forall applicantID id out,
        GetDocument c ctx applicantID id net = (out, (net ++ [req])%list) ->
        out = Returns (Some Document_zero, Some e))
  /\ (forall applicantID id out,
        DownloadDocument c ctx applicantID id net = (out, (net ++ [req])%list) ->
        out = Returns (Some {| Size := 0; Content := [] |}, Some e))
  /\ (forall it ok it',
        iter.c (iter_ it) = c ->
        DocumentIter_Next it ctx net = (ok, it', (net ++ [req])%list) ->
        ok = false
        /\ DocumentIter_Err it' = Some e
        /\ iter.values (iter_ it') = iter.values (iter_ it)
        /\ iter.index (iter_ it') = iter.index (iter_ it)
        /\ forall ctx' net', DocumentIter_Next it' ctx' net' = (false, it', net')).
Proof.
  intros Ht Hs. cbv zeta. repeat split; intros.
  - now apply (UploadDocument_rejected _ _ _ _ _ _ _ _ _ _ Ht Hs H).
  - now apply (GetDocument_rejected _ _ _ _ _ _ _ _ Ht Hs H).
  - now apply (DownloadDocument_rejected _ _ _ _ _ _ _ _ Ht Hs H).
  - subst c. now destruct (Next_rejected _ _ _ _ _ _ _ Ht Hs H0).
  - subst c. destruct (Next_rejected _ _ _ _ _ _ _ Ht Hs H0) as [_ ->].
    reflexivity.
  - subst c. destruct (Next_rejected _ _ _ _ _ _ _ Ht Hs H0) as [_ ->].
    reflexivity.
  - subst c. destruct (Next_rejected _ _ _ _ _ _ _ Ht Hs H0) as [_ ->].
    reflexivity.
  - subst c. destruct (Next_rejected _ _ _ _ _ _ _ Ht Hs H0) as [_ ->].
    now eapply Next_failed.
Qed.

(** C5.  If the fetch or the decoding of the first page fails with [e],
    the first advance is false and records [e]; the iterator is then
    Failed for good: every later advance is false and leaves it as it
    is, with the same error. *)
Theorem first_page_failure (c : Client) (ctx : Context) (applicantID : string)
    (net : list Request) (e : error) :
  FirstPageFails c ctx applicantID e ->
  exists it net',
    DocumentIter_Next (ListDocuments c applicantID) ctx net = (false, it, net')
    /\ DocumentIter_Err it = Some e
    /\ forall ctx' net'', DocumentIter_Next it ctx' net'' = (false, it, net'').
Proof.
  intros Hf. rewrite ListDocuments_start.
  destruct Hf as [e Hv | e Hv Ht | resp Hv Ht Hs | resp d e Hv Ht Hs Hd];
    rewrite Hv.
  - eexists _, _. split; [reflexivity|]. split; [reflexivity|].
    intros. now apply (Next_failed _ e).
  - unfold do. rewrite Ht.
    eexists _, _. split; [reflexivity|]. split; [reflexivity|].
    intros. now apply (Next_failed _ e).
  - rewrite (do_rejected _ _ _ _ _ _ _ Ht Hs).
    eexists _, _. split; [reflexivity|]. split; [reflexivity|].
    intros. now eapply Next_failed.
  - rewrite (do_accepted _ _ _ _ _ _ _ Ht Hs). cbn [fst snd].
    unfold ListDocuments_handler. rewrite Hd.
    eexists _, _. split; [reflexivity|]. split; [reflexivity|].
    intros. now apply (Next_failed _ e).
Qed.

(** C6.  When the first page is fetched, carries no next-page link and
    decodes to exactly one item, the first advance is true after one
    request, the current item is that item, and every advance after it
    is false, changes nothing and leaves no error. *)
Theorem single_item_listing (c : Client) (ctx : Context) (applicantID : string)
    (net : list Request) (resp : Response) (doc : option Document) :
  http_invalid "GET" (URL (firstPage c applicantID)) = None ->
  HTTPClient c ctx (firstPage c applicantID) = inr resp ->
  is2xx (StatusCode resp) = true ->
  NextPage resp = "" ->
  json_Documents (RespBody resp) Documents_zero = ({| Documents_ := [doc] |}, None) ->
  exists it,
    DocumentIter_Next (ListDocuments c applicantID) ctx net
    = (true, it, (net ++ [firstPage c applicantID])%list)
    /\ DocumentIter_Document it = Returns doc
    /\ forall ctx' net',
         DocumentIter_Next it ctx' net' = (false, it, net')
         /\ DocumentIter_Err it = None.
Proof.
  intros Hv Ht Hs Hn Hd. rewrite ListDocuments_start, Hv.
  rewrite (do_accepted _ _ _ _ _ _ _ Ht Hs). cbn [fst snd].
  unfold ListDocuments_handler. rewrite Hd, Hn.
  eexists. repeat split.
Qed.

(** C7.  A download answered inside 2xx returns a blob whose content is
    the body of the response, byte for byte, and whose size is the
    length of that body, with a nil error. *)
Theorem download_returns_body (c : Client) (ctx : Context)
    (applicantID id : string) (net : list Request) (resp : Response) :
  http_invalid "GET" (URL (downloadRequest c applicantID id)) = None ->
  HTTPClient c ctx (downloadRequest c applicantID id) = inr resp ->
  is2xx (StatusCode resp) = true ->
  DownloadDocument c ctx applicantID id net
  = (Returns (Some {| Size := len (RespBody resp); Content := RespBody resp |}, None),
     (net ++ [downloadRequest c applicantID id])%list).
Proof.
  intros Hv Ht Hs. unfold DownloadDocument, download, newRequest.
  cbn [URL downloadRequest] in Hv. rewrite Hv.
  change {| Method := "GET";
            URL := Endpoint c ++ "/applicants/" ++ applicantID ++ "/documents/"
                   ++ id ++ "/download";
            Header := textproto.make; Body := None |}
    with (downloadRequest c applicantID id).
  rewrite (do_accepted _ _ _ _ _ _ _ Ht Hs). reflexivity.
Qed.

End Results.

(** ** The statements at concrete inputs *)

Lemma upload_writes_all_fields_witness :
  exists req,
    snd (UploadDocument (rt := sampleRuntime) forbidden Background "a1"
           sampleRequest "id.png" []) = ([] ++ [req])%list
    /\ Method req = "POST"
    /\ URL req = uploadURL forbidden "a1"
    /\ Body req
       = Some (uploadBody "7d3f0c" "id.png" "application/octet-stream"
                 (bytes_of "test") "national_identity_card" "" "").
Proof.
  apply (upload_writes_all_fields (rt := sampleRuntime) forbidden Background "a1"
           sampleRequest "id.png" []); reflexivity.
Defined.

Lemma sniffing_does_not_consume_witness :
  let w1 := fst (fst (fst sampleFilePart)) in
  let f1 := snd (fst (fst sampleFilePart)) in
  sampleFilePart = (w1, f1, Some O, None)
  /\ io.i f1 = 0
  /\ io.s f1 = bytes_of "test"
  /\ io.unread f1 = bytes_of "test"
  /\ (io.fault f1 = None ->
      multipart.Copy w1 O f1
      = (appended w1 (bytes_of "test") (opened O) (multipart.created w1),
         {| io.s := bytes_of "test"; io.i := len (bytes_of "test");
            io.faults := tl (io.faults f1) |},
         len (bytes_of "test"), None)).
Proof.
  split; [reflexivity|].
  exact (sniffing_does_not_consume (rt := sampleRuntime)
           (multipart.NewWriter ([] : Buffer) "7d3f0c")
           (fst (fst (fst sampleFilePart))) "file" "id.png" (File sampleRequest)
           (snd (fst (fst sampleFilePart))) O eq_refl).
Defined.

Lemma encoding_failure_sends_nothing_witness :
  EncodingFails (rt := sampleRuntime) emptyRequest "id.png"
    (io.step (File emptyRequest)) EOF
  /\ UploadDocument (rt := sampleRuntime) forbidden Background "a1" emptyRequest
       "id.png" []
     = (Returns (None, Some EOF), io.step (File emptyRequest), []).
Proof.
  assert (H : EncodingFails (rt := sampleRuntime) emptyRequest "id.png"
                (io.step (File emptyRequest)) EOF)
    by (apply (ReadFails _ _ _ []); reflexivity).
  split; [exact H|].
  exact (encoding_failure_sends_nothing (rt := sampleRuntime) forbidden Background
           "a1" emptyRequest "id.png" [] _ _ H).
Defined.

Lemma nil_request_is_dereferenced_witness :
  newRequest (rt := sampleRuntime) forbidden "POST"
    ("/applicants/" ++ badApplicant ++ "/documents")
    (Some (multipart.w (fst (fst sampleEncoding))))
  = (None, Some (ErrRequest "net/url: invalid control character in URL"))
  /\ UploadDocument (rt := sampleRuntime) forbidden Background badApplicant
       sampleRequest "id.png" []
     = (Panics "invalid memory address or nil pointer dereference",
        snd (fst sampleEncoding), []).
Proof.
  split; [reflexivity|].
  exact (proj1 (nil_request_is_dereferenced (rt := sampleRuntime) forbidden
                  Background badApplicant sampleRequest "id.png" []
                  (fst (fst sampleEncoding)) (snd (fst sampleEncoding))
                  (ErrRequest "net/url: invalid control character in URL")
                  eq_refl eq_refl)).
Defined.

Lemma non_2xx_never_succeeds_witness :
  let r := DocumentIter_Next (rt := sampleRuntime) afterFirstPage Background
             [firstPage twoPages "a1"] in
  snd r = ([firstPage twoPages "a1"] ++ [secondPage])%list
  /\ fst (fst r) = false
  /\ DocumentIter_Err (snd (fst r)) = Some (ErrAPI 403 thingsWentBad)
  /\ iter.values (iter_ (snd (fst r))) = [PtrDocument (Some sampleDocument)]
  /\ iter.index (iter_ (snd (fst r))) = O
  /\ forall ctx' net',
       DocumentIter_Next (rt := sampleRuntime) (snd (fst r)) ctx' net'
       = (false, snd (fst r), net').
Proof.
  split; [reflexivity|].
  exact (proj2 (proj2 (proj2
           (non_2xx_never_succeeds (rt := sampleRuntime) twoPages Background
              [firstPage twoPages "a1"] secondPage
              {| StatusCode := 403; RespBody := bytes_of thingsWentBad;
                 NextPage := "" |} eq_refl eq_refl)))
           afterFirstPage false
           (snd (fst (DocumentIter_Next (rt := sampleRuntime) afterFirstPage
                        Background [firstPage twoPages "a1"])))
           eq_refl eq_refl).
Defined.

Lemma first_page_failure_witness :
  exists it net',
    DocumentIter_Next (rt := sampleRuntime)
      (ListDocuments (rt := sampleRuntime) forbidden "") Background []
    = (false, it, net')
    /\ DocumentIter_Err it = Some (ErrAPI 403 thingsWentBad)
    /\ forall ctx' net'',
         DocumentIter_Next (rt := sampleRuntime) it ctx' net'' = (false, it, net'').
Proof.
  apply (first_page_failure (rt := sampleRuntime) forbidden Background "" []).
  apply (StatusFails (rt := sampleRuntime) forbidden Background ""
           {| StatusCode := 403; RespBody := bytes_of thingsWentBad;
              NextPage := "" |}); reflexivity.
Defined.

Lemma single_item_listing_witness :
  exists it,
    DocumentIter_Next (rt := sampleRuntime)
      (ListDocuments (rt := sampleRuntime) (answering 200 "doc-1") "a1")
      Background []
    = (true, it, ([] ++ [firstPage (answering 200 "doc-1") "a1"])%list)
    /\ DocumentIter_Document it = Returns (Some sampleDocument)
    /\ forall ctx' net',
         DocumentIter_Next (rt := sampleRuntime) it ctx' net' = (false, it, net')
         /\ DocumentIter_Err it = None.
Proof.
  apply (single_item_listing (rt := sampleRuntime) (answering 200 "doc-1")
           Background "a1" []
           {| StatusCode := 200; RespBody := bytes_of "doc-1"; NextPage := "" |}
           (Some sampleDocument)); reflexivity.
Defined.

Lemma download_returns_body_witness :
  DownloadDocument (rt := sampleRuntime) (answering 200 "hello world") Background
    "a1" "doc-1" []
  = (Returns (Some {| Size := 11; Content := bytes_of "hello world" |}, None),
     [downloadRequest (answering 200 "hello world") "a1" "doc-1"]).
Proof.
  exact (download_returns_body (rt := sampleRuntime) (answering 200 "hello world")
           Background "a1" "doc-1" []
           {| StatusCode := 200; RespBody := bytes_of "hello world";
              NextPage := "" |} eq_refl eq_refl eq_refl).
Defined.

(** ** Runs of the package's tests *)

Example TestUploadDocument_NonOKResponse :
  fst (fst (UploadDocument (rt := sampleRuntime) forbidden Background ""
              sampleRequest "id.png" []))
  = Returns (Some Document_zero, Some (ErrAPI 403 thingsWentBad)).
Proof. reflexivity. Qed.

Example upload_of_a_consumed_stream :
  UploadDocument (rt := sampleRuntime) forbidden Background "a1"
    {| File := {| io.s := bytes_of "test"; io.i := 4; io.faults := [] |};
       dr_Type := DocumentTypePassport; dr_Side := ""; dr_IssuingCountry := "" |}
    "id.png" []
  = (Returns (None, Some EOF),
     {| io.s := bytes_of "test"; io.i := 4; io.faults := [] |}, []).
Proof. reflexivity. Qed.

Example upload_with_a_failing_seek :
  UploadDocument (rt := sampleRuntime) forbidden Background "a1"
    {| File := {| io.s := bytes_of "test"; io.i := 0;
                  io.faults := [None; Some (ErrIO "seek")] |};
       dr_Type := DocumentTypePassport; dr_Side := ""; dr_IssuingCountry := "" |}
    "id.png" []
  = (Returns (None, Some (ErrIO "seek")),
     {| io.s := bytes_of "test"; io.i := 4; io.faults := [] |}, []).
Proof. reflexivity. Qed.

(** * Further properties of document.go *)

(** ** escapeQuotes *)

Lemma escape_spec_app (a b : string) :
  escape_spec (a ++ b) = escape_spec a ++ escape_spec b.
Proof.
  induction a as [|ch rest IH]; [reflexivity|].
  cbn [append escape_spec].
  destruct (Ascii.eqb ch backslash); [now rewrite IH|].
  destruct (Ascii.eqb ch dquote); now rewrite IH.
Qed.

Lemma escape_spec_length (t : string) :
  (String.length t <= String.length (escape_spec t) <= 2 * String.length t)%nat.
Proof.
  induction t as [|ch rest IH]; [cbn; lia|].
  cbn [escape_spec].
  destruct (Ascii.eqb ch backslash); [cbn [String.length]; lia|].
  destruct (Ascii.eqb ch dquote); cbn [String.length]; lia.
Qed.

(** X1.  Escaping goes through concatenation: the escaped form of a
    concatenation is the concatenation of the escaped forms. *)
Theorem escapeQuotes_app (a b : string) :
  escapeQuotes (a ++ b) = escapeQuotes a ++ escapeQuotes b.
Proof. rewrite !escapeQuotes_spec. apply escape_spec_app. Qed.

(** X2.  Escaping never shortens a string and at most doubles it. *)
Theorem escapeQuotes_length (t : string) :
  (String.length t <= String.length (escapeQuotes t) <= 2 * String.length t)%nat.
Proof. rewrite escapeQuotes_spec. apply escape_spec_length. Qed.

(** X3.  Escaping leaves a string as it is exactly when the string holds
    neither a backslash nor a double quote. *)
Theorem escapeQuotes_fixed (t : string) :
  escapeQuotes t = t <-> strings.ContainsAny t (String backslash quote) = false.
Proof.
  split; [|apply escapeQuotes_plain].
  rewrite escapeQuotes_spec.
  induction t as [|ch rest IH]; [reflexivity|].
  intros E. pose proof (escape_spec_length rest) as Hl.
  cbn [escape_spec] in E.
  cbn [strings.ContainsAny strings.IndexByte quote]. rewrite orb_false_r.
  destruct (Ascii.eqb ch backslash) eqn:Hb.
  - exfalso. injection E as _ E. apply (f_equal String.length) in E.
    cbn [String.length] in E. lia.
  - destruct (Ascii.eqb ch dquote) eqn:Hq.
    + exfalso. injection E as E _. apply Ascii.eqb_eq in Hq. subst ch.
      discriminate E.
    + injection E as E. cbn [orb]. now apply IH.
Qed.

(** X4.  A line break in the file name is not escaped: the
    Content-Disposition value carries the CR LF as it is, between the
    escaped text before it and the escaped text after it. *)
Theorem fileDisposition_keeps_line_breaks (fieldname a b : string) :
  fileDisposition fieldname (a ++ CRLF ++ b)
  = "form-data; name=" ++ quote ++ escapeQuotes fieldname ++ quote
    ++ "; filename=" ++ quote ++ escapeQuotes a ++ CRLF ++ escapeQuotes b ++ quote.
Proof.
  unfold fileDisposition. rewrite !escapeQuotes_spec, !escape_spec_app.
  change (escape_spec CRLF) with CRLF.
  now rewrite !append_assoc.
Qed.

(** ** createFormFile *)

Section FilePartMore.

Context {rt : Runtime}.

Lemma sniffBuffer_is_512_bytes (file : io.ReadSeeker) :
  let data := snd (fst (io.Read file 512)) in
  length (sniffBuffer data) = 512%nat
  /\ firstn (length data) (sniffBuffer data) = data.
Proof.
  cbv zeta. unfold sniffBuffer. split.
  - rewrite length_app, repeat_length.
    assert (length (snd (fst (io.Read file 512))) <= 512)%nat; [|lia].
    unfold io.Read. destruct (io.fault file); [cbn; lia|].
    destruct (len (io.s file) <=? io.i file); [cbn; lia|].
    cbn [fst snd]. apply firstn_le_length.
  - rewrite firstn_app, Nat.sub_diag, firstn_all. cbn [firstn]. apply app_nil_r.
Qed.

(** X7.  The content type [createFormFile] writes for a readable stream
    is the verdict of [http.DetectContentType] on a buffer of exactly
    512 bytes: the unread bytes, 512 of them at most, followed by zero
    bytes.  A file shorter than 512 bytes is therefore sniffed together
    with its zero padding, not on its own. *)
Theorem detector_receives_512_bytes (boundary fieldname filename : string)
    (file : io.ReadSeeker) :
  io.faults file = [] -> io.i file < len (io.s file) ->
  let data := firstn 512 (io.unread file) in
  exists buffer,
    length buffer = 512%nat
    /\ buffer = (data ++ repeat "000"%byte (512 - length data))%list
    /\ filePartWritten boundary fieldname filename file
       = bytes_of (fileHead boundary (fileDisposition fieldname filename)
                     (DetectContentType buffer)).
Proof.
  intros Hf Hi. cbv zeta.
  exists (sniffBuffer (firstn 512 (io.unread file))). repeat split.
  - unfold sniffBuffer. rewrite length_app, repeat_length.
    pose proof (firstn_le_length 512 (io.unread file)). lia.
  - now rewrite (filePartWritten_healthy _ _ _ _ Hf Hi).
Qed.

(** X8.  When [createFormFile] fails over an in-memory buffer, it
    returns a nil part and the writer is as it was: nothing of the part
    has been written. *)
Theorem createFormFile_failure_writes_nothing (writer w1 : multipart.Writer Buffer)
    (fieldname filename : string) (file f1 : io.ReadSeeker)
    (p : option multipart.part) (e : error) :
  sound writer ->
  createFormFile writer fieldname file filename = (w1, f1, p, Some e) ->
  w1 = writer /\ p = None.
Proof.
  intros Hs. unfold createFormFile.
  destruct (io.Read file 512) as [[fr data] [er|]].
  - intros E; inversion E; subst. now split.
  - destruct (io.Seek fr 0 0) as [[fs n] [es|]].
    + intros E; inversion E; subst. now split.
    + rewrite (CreatePart_Buffer _ _ Hs). discriminate.
Qed.

(** X9.  The part head [createFormFile] writes depends on the stream
    only through its first 512 unread bytes: two readable streams that
    agree on them leave the writer in the same state. *)
Theorem createFormFile_reads_512_bytes (writer : multipart.Writer Buffer)
    (fieldname filename : string) (f g : io.ReadSeeker) :
  sound writer ->
  io.faults f = [] -> io.i f < len (io.s f) ->
  io.faults g = [] -> io.i g < len (io.s g) ->
  firstn 512 (io.unread f) = firstn 512 (io.unread g) ->
  fst (fst (fst (createFormFile writer fieldname f filename)))
  = fst (fst (fst (createFormFile writer fieldname g filename))).
Proof.
  intros Hs Hf Hi Hg Hj E.
  rewrite !createFormFile_healthy by assumption.
  cbn [fst]. unfold sniffed. now rewrite E.
Qed.

End FilePartMore.

(** ** The operations *)

Section OperationsMore.

Context {rt : Runtime}.

Lemma sendUpload_keeps_stream (c : Client) (ctx : Context) (applicantID : string)
    (writer : multipart.Writer Buffer) (file : io.ReadSeeker) (net : list Request) :
  snd (fst (sendUpload c ctx applicantID writer file net)) = file.
Proof.
  unfold sendUpload.
  destruct (newRequest c "POST" _ _) as [[req|] [e|]]; try reflexivity.
  match goal with
  | |- context [do c ctx ?r ?d ?v net] => now destruct (do c ctx r d v net) as [[[? ?] ?] ?]
  end.
Qed.

Lemma sendUpload_logs (c : Client) (ctx : Context) (applicantID : string)
    (writer : multipart.Writer Buffer) (file : io.ReadSeeker) (net : list Request) :
  exists sent,
    snd (sendUpload c ctx applicantID writer file net) = (net ++ sent)%list
    /\ (length sent <= 1)%nat.
Proof.
  unfold sendUpload.
  destruct (newRequest c "POST" _ _) as [[req|] [e|]];
    try (exists []; rewrite app_nil_r; split; [reflexivity | cbn; lia]).
  match goal with
  | |- context [do c ctx ?r ?d ?v net] =>
      exists [r]; pose proof (do_logs c ctx r d v net) as Hl;
      destruct (do c ctx r d v net) as [[[? ?] ?] ?]
  end.
  cbn [snd] in *. split; [exact Hl | cbn; lia].
Qed.

Lemma Read_exhausted (f : io.ReadSeeker) (n : nat) :
  io.fault f = None -> len (io.s f) <= io.i f ->
  io.Read f n = (io.step f, [], Some EOF).
Proof.
  intros Hf Hi. unfold io.Read. rewrite Hf.
  apply Z.leb_le in Hi. now rewrite Hi.
Qed.

(** X5.  A stream with no unread byte, an empty file or a stream
    standing at its end, cannot be uploaded: the sniffing read meets the
    end of the stream and [UploadDocument] returns [io.EOF] with a nil
    document, having sent nothing. *)
Theorem upload_of_exhausted_stream (c : Client) (ctx : Context)
    (applicantID : string) (dr : DocumentRequest) (filename : string)
    (net : list Request) :
  io.fault (File dr) = None ->
  len (io.s (File dr)) <= io.i (File dr) ->
  UploadDocument c ctx applicantID dr filename net
  = (Returns (None, Some EOF), io.step (File dr), net).
Proof.
  intros Hf Hi. rewrite UploadDocument_phases.
  now rewrite (encodeUpload_read_fails _ _ _ _ _ (Read_exhausted _ 512 Hf Hi)).
Qed.

(** X6.  An upload leaves the stream at its end, whatever happens to
    the request; a second upload of the same stream, not rewound by the
    caller, fails with [io.EOF] and sends nothing. *)
Theorem second_upload_meets_EOF (c : Client) (ctx : Context)
    (applicantID : string) (dr : DocumentRequest) (filename : string)
    (net : list Request) :
  io.faults (File dr) = [] ->
  io.i (File dr) < len (io.s (File dr)) ->
  let file := snd (fst (UploadDocument c ctx applicantID dr filename net)) in
  file = {| io.s := io.s (File dr); io.i := len (io.s (File dr)); io.faults := [] |}
  /\ forall c' ctx' applicantID' filename' net',
       UploadDocument c' ctx' applicantID'
         {| File := file; dr_Type := dr_Type dr; dr_Side := dr_Side dr;
            dr_IssuingCountry := dr_IssuingCountry dr |} filename' net'
       = (Returns (None, Some EOF), file, net').
Proof.
  intros Hf Hi. cbv zeta.
  rewrite UploadDocument_phases, (encodeUpload_healthy _ _ Hf Hi).
  rewrite sendUpload_keeps_stream.
  split; [reflexivity|]. intros.
  rewrite UploadDocument_phases.
  erewrite encodeUpload_read_fails;
    [reflexivity | apply Read_exhausted; [reflexivity | cbn; lia]].
Qed.

Lemma Get_Set (h : textproto.MIMEHeader) (key value : string) :
  textproto.Get (textproto.Set_ h key value) key = value.
Proof.
  induction h as [|[k vs] rest IH]; cbn [textproto.Set_ textproto.Get].
  - now rewrite String.eqb_refl.
  - destruct (String.eqb key k) eqn:Ek.
    + cbn [textproto.Get]. now rewrite String.eqb_refl.
    + destruct (String.ltb key k); cbn [textproto.Get].
      * now rewrite String.eqb_refl.
      * now rewrite Ek.
Qed.

(** X10.  The request of an upload carries, as the value of its
    Content-Type header, the multipart type announcing the boundary that
    delimits its body, inside quotes when the boundary holds a tspecial
    or a space: the value set at line 144 ([Get_Set]). *)
Theorem upload_header_matches_body (c : Client) (ctx : Context)
    (applicantID : string) (dr : DocumentRequest) (filename : string)
    (net : list Request) :
  io.faults (File dr) = [] ->
  io.i (File dr) < len (io.s (File dr)) ->
  http_invalid "POST" (uploadURL c applicantID) = None ->
  exists req,
    snd (UploadDocument c ctx applicantID dr filename net) = (net ++ [req])%list
    /\ textproto.Get (Header req) "Content-Type"
       = "multipart/form-data; boundary=" ++ announced randomBoundary
    /\ Body req
       = Some (uploadBody randomBoundary filename (sniffed (File dr))
                 (io.s (File dr)) (dr_Type dr) (dr_Side dr) (dr_IssuingCountry dr)).
Proof.
  intros Hf Hi Hv.
  rewrite UploadDocument_phases, (encodeUpload_healthy _ _ Hf Hi).
  unfold sendUpload, newRequest. unfold uploadURL in Hv. rewrite Hv.
  cbn [multipart.w].
  match goal with
  | |- context [do c ctx ?r ?d ?v net] =>
      exists r; pose proof (do_logs c ctx r d v net) as Hl;
      destruct (do c ctx r d v net) as [[[r0 d0] e0] n0]
  end.
  cbn [snd] in *. split; [exact Hl|]. split; [|reflexivity].
  unfold Header_Set. cbn [Header]. now rewrite Get_Set.
Qed.

(** X11.  Every operation only extends the log of requests, and by one
    request at most. *)
Theorem one_request_at_most (c : Client) (ctx : Context) (applicantID : string)
    (net : list Request) :
  (forall dr filename, exists sent,
     snd (UploadDocument c ctx applicantID dr filename net) = (net ++ sent)%list
     /\ (length sent <= 1)%nat)
  /\ (forall id, exists sent,
        snd (GetDocument c ctx applicantID id net) = (net ++ sent)%list
        /\ (length sent <= 1)%nat)
  /\ (forall id, exists sent,
        snd (DownloadDocument c ctx applicantID id net) = (net ++ sent)%list
        /\ (length sent <= 1)%nat).
Proof.
  repeat split; intros.
  - rewrite UploadDocument_phases.
    destruct (encodeUpload dr filename) as [[writer file] [[e|]|msg]];
      try (exists []; rewrite app_nil_r; split; [reflexivity | cbn; lia]).
    apply sendUpload_logs.
  - unfold GetDocument.
    destruct (newRequest c "GET" _ None) as [[req|] [e|]];
      try (exists []; rewrite app_nil_r; split; [reflexivity | cbn; lia]).
    match goal with
    | |- context [do c ctx ?r ?d ?v net] =>
        exists [r]; pose proof (do_logs c ctx r d v net) as Hl;
        destruct (do c ctx r d v net) as [[[? ?] ?] ?]
    end.
    cbn [snd] in *. split; [exact Hl | cbn; lia].
  - unfold DownloadDocument, download.
    destruct (newRequest c "GET" _ None) as [[req|] [e|]];
      try (exists []; rewrite app_nil_r; split; [reflexivity | cbn; lia]).
    match goal with
    | |- context [do c ctx ?r ?d ?v net] =>
        exists [r]; pose proof (do_logs c ctx r d v net) as Hl;
        destruct (do c ctx r d v net) as [[[? ?] ?] ?]
    end.
    cbn [snd] in *. split; [exact Hl | cbn; lia].
Qed.

(** X12.  No operation returns a nil result together with a nil error:
    a caller that sees no error holds a document or a blob. *)
Theorem never_nil_and_nil (c : Client) (ctx : Context) (applicantID : string)
    (net : list Request) :
  (forall dr filename,
     fst (fst (UploadDocument c ctx applicantID dr filename net))
     <> Returns (None, None))
  /\ (forall id, fst (GetDocument c ctx applicantID id net) <> Returns (None, None))
  /\ (forall id,
        fst (DownloadDocument c ctx applicantID id net) <> Returns (None, None)).
Proof.
  repeat split; intros.
  - rewrite UploadDocument_phases.
    destruct (encodeUpload dr filename) as [[writer file] [[e|]|msg]];
      try discriminate.
    unfold sendUpload.
    destruct (newRequest c "POST" _ _) as [[req|] [e|]]; try discriminate.
    match goal with
    | |- context [do c ctx ?r ?d ?v net] =>
        destruct (do c ctx r d v net) as [[[? ?] ?] ?]
    end.
    discriminate.
  - unfold GetDocument.
    destruct (newRequest c "GET" _ None) as [[req|] [e|]]; try discriminate.
    match goal with
    | |- context [do c ctx ?r ?d ?v net] =>
        destruct (do c ctx r d v net) as [[[? ?] ?] ?]
    end.
    discriminate.
  - unfold DownloadDocument.
    destruct (newRequest c "GET" _ None) as [[req|] [e|]]; try discriminate.
    destruct (download c ctx req net) as [[? ?] ?]. discriminate.
Qed.

(** X13.  Every blob [DownloadDocument] returns, with or without an
    error, has [Size] equal to the length of its [Content]. *)
Theorem download_size_is_length (c : Client) (ctx : Context)
    (applicantID id : string) (net net' : list Request) (blob : DocumentDownload)
    (err : option error) :
  DownloadDocument c ctx applicantID id net = (Returns (Some blob, err), net') ->
  Size blob = len (Content blob).
Proof.
  unfold DownloadDocument.
  destruct (newRequest c "GET" _ None) as [[req|] [e|]]; try discriminate.
  destruct (download c ctx req net) as [[b e] n].
  intros E; inversion E; subst. reflexivity.
Qed.

(** X14.  Identifiers enter the path as they are: getting the document
    whose identifier is [id] followed by [/download] sends the very
    request that downloading [id] sends. *)
Theorem get_reaches_download_path (c : Client) (ctx : Context)
    (applicantID id : string) (net : list Request) :
  snd (GetDocument c ctx applicantID (id ++ "/download") net)
  = snd (DownloadDocument c ctx applicantID id net).
Proof.
  unfold GetDocument, DownloadDocument, download, newRequest.
  destruct (http_invalid "GET" _) as [e|]; [reflexivity|].
  repeat match goal with
  | |- context [do c ctx ?r ?d ?v net] =>
      let Hl := fresh "Hl" in
      pose proof (do_logs c ctx r d v net) as Hl;
      destruct (do c ctx r d v net) as [[[? ?] ?] ?]
  end.
  cbn [snd] in *. congruence.
Qed.

(** X16.  When the request is accepted and answered inside 2xx,
    [GetDocument] sends one GET for the document's path and returns the
    document decoded from the body together with the decoder's error: a
    malformed body gives back the partly filled document, not nil.  (The
    transport is [do] as the specification describes it.) *)
Theorem GetDocument_decodes_body (c : Client) (ctx : Context)
    (applicantID id : string) (net : list Request) (resp : Response) :
  let req := {| Method := "GET";
                URL := Endpoint c ++ "/applicants/" ++ applicantID
                       ++ "/documents/" ++ id;
                Header := textproto.make; Body := None |} in
  http_invalid "GET" (URL req) = None ->
  HTTPClient c ctx req = inr resp ->
  is2xx (StatusCode resp) = true ->
  GetDocument c ctx applicantID id net
  = (Returns (Some (fst (json_Document (RespBody resp) Document_zero)),
              snd (json_Document (RespBody resp) Document_zero)),
     (net ++ [req])%list).
Proof.
  cbv zeta. cbn [URL]. intros Hv Ht Hs.
  unfold GetDocument, newRequest. rewrite Hv.
  now rewrite (do_accepted _ _ _ _ _ _ _ Ht Hs).
Qed.

End OperationsMore.

(** ** The listing *)

Section ListingMore.

Context {rt : Runtime}.

Lemma ListDocuments_handler_typed (body : bytes) :
  Forall (fun v => exists p, v = PtrDocument p) (fst (ListDocuments_handler body)).
Proof.
  unfold ListDocuments_handler.
  destruct (json_Documents body Documents_zero) as [d [e|]]; cbn [fst].
  - constructor.
  - induction (Documents_ d) as [|p l IH]; cbn [map]; constructor;
      [now exists p | exact IH].
Qed.

Lemma Next_typed (it : DocumentIter) (ctx : Context) (net : list Request) :
  typed it -> typed (snd (fst (DocumentIter_Next it ctx net))).
Proof.
  intros [Hh Hv]. unfold DocumentIter_Next, iter.Next.
  destruct (iter.err (iter_ it)); [now split|].
  destruct (S (iter.index (iter_ it)) <? length (iter.values (iter_ it)))%nat;
    [now split|].
  destruct (String.eqb (iter.nextURL (iter_ it)) ""); [now split|].
  destruct (newRequest (iter.c (iter_ it)) "GET" (iter.nextURL (iter_ it)) None)
    as [[req|] [e|]]; try (now split).
  match goal with
  | |- context [do ?c ctx ?r ?d ?v net] =>
      destruct (do c ctx r d v net) as [[[resp body] [e|]] net']
  end; [now split|].
  rewrite Hh. pose proof (ListDocuments_handler_typed body) as Ht.
  destruct (ListDocuments_handler body) as [items [e|]]; now split.
Qed.

Lemma Listed_typed (c : Client) (applicantID : string) (it : DocumentIter) :
  Listed c applicantID it -> typed it.
Proof.
  induction 1 as [|it ctx net _ IH].
  - split; [reflexivity | constructor].
  - now apply Next_typed.
Qed.

Lemma Next_true_has_current (it : DocumentIter) (ctx : Context)
    (net : list Request) :
  fst (fst (DocumentIter_Next it ctx net)) = true ->
  iter.Current (iter_ (snd (fst (DocumentIter_Next it ctx net)))) <> None.
Proof.
  unfold DocumentIter_Next, iter.Next, iter.Current.
  destruct (iter.err (iter_ it)); [discriminate|].
  destruct (S (iter.index (iter_ it)) <? length (iter.values (iter_ it)))%nat eqn:Hi.
  - intros _. cbn [fst snd iter_ iter.values iter.index].
    apply nth_error_Some. now apply Nat.ltb_lt in Hi.
  - destruct (String.eqb (iter.nextURL (iter_ it)) ""); [discriminate|].
    destruct (newRequest (iter.c (iter_ it)) "GET" (iter.nextURL (iter_ it)) None)
      as [[req|] [e|]]; try discriminate.
    match goal with
    | |- context [do ?c ctx ?r ?d ?v net] =>
        destruct (do c ctx r d v net) as [[[resp body] [e|]] net']
    end; [discriminate|].
    destruct (iter.handler (iter_ it) body) as [[|v items] [e|]];
      discriminate.
Qed.

(** X15.  Along a listing started by [ListDocuments], whenever [Next]
    answers true, [Document] returns the current item: the type
    assertion finds a [*Document] and does not panic.  ([Next] is the
    iterator as the specification describes it.) *)
Theorem Document_after_Next (c : Client) (applicantID : string)
    (it : DocumentIter) (ctx : Context) (net : list Request) :
  Listed c applicantID it ->
  fst (fst (DocumentIter_Next it ctx net)) = true ->
  exists p,
    DocumentIter_Document (snd (fst (DocumentIter_Next it ctx net))) = Returns p.
Proof.
  intros Hl Ht.
  pose proof (Next_typed it ctx net (Listed_typed _ _ _ Hl)) as [_ Hv].
  pose proof (Next_true_has_current it ctx net Ht) as Hc.
  unfold DocumentIter_Document.
  destruct (iter.Current _) as [v|] eqn:Ec; [|contradiction].
  apply nth_error_In in Ec.
  rewrite Forall_forall in Hv. destruct (Hv v Ec) as [p ->].
  now exists p.
Qed.

End ListingMore.

(** ** The further properties at concrete inputs *)

Lemma upload_of_exhausted_stream_witness :
  UploadDocument (rt := sampleRuntime) forbidden Background "a1" emptyRequest
    "id.png" []
  = (Returns (None, Some EOF), io.step (File emptyRequest), []).
Proof.
  apply (upload_of_exhausted_stream (rt := sampleRuntime) forbidden Background
           "a1" emptyRequest "id.png" []); [reflexivity | cbn; lia].
Defined.

Lemma second_upload_meets_EOF_witness :
  let file := snd (fst (UploadDocument (rt := sampleRuntime) forbidden Background
                          "a1" sampleRequest "id.png" [])) in
  file = {| io.s := bytes_of "test"; io.i := 4; io.faults := [] |}
  /\ forall c' ctx' applicantID' filename' net',
       UploadDocument (rt := sampleRuntime) c' ctx' applicantID'
         {| File := file; dr_Type := DocumentTypeIDCard; dr_Side := "";
            dr_IssuingCountry := "" |} filename' net'
       = (Returns (None, Some EOF), file, net').
Proof.
  apply (second_upload_meets_EOF (rt := sampleRuntime) forbidden Background "a1"
           sampleRequest "id.png" []); reflexivity.
Defined.

Lemma createFormFile_failure_writes_nothing_witness :
  let r := createFormFile (rt := sampleRuntime)
             (multipart.NewWriter ([] : Buffer) "7d3f0c") "file"
             (File emptyRequest) "id.png" in
  snd r = Some EOF
  /\ fst (fst (fst r)) = multipart.NewWriter ([] : Buffer) "7d3f0c"
  /\ snd (fst r) = None.
Proof.
  split; [reflexivity|].
  exact (createFormFile_failure_writes_nothing (rt := sampleRuntime)
           (multipart.NewWriter ([] : Buffer) "7d3f0c")
           (fst (fst (fst (createFormFile (rt := sampleRuntime)
                             (multipart.NewWriter ([] : Buffer) "7d3f0c") "file"
                             (File emptyRequest) "id.png"))))
           "file" "id.png" (File emptyRequest) (io.step (File emptyRequest))
           (snd (fst (createFormFile (rt := sampleRuntime)
                        (multipart.NewWriter ([] : Buffer) "7d3f0c") "file"
                        (File emptyRequest) "id.png")))
           EOF I eq_refl).
Defined.

Lemma createFormFile_reads_512_bytes_witness :
  fst (fst (fst (createFormFile (rt := sampleRuntime)
                   (multipart.NewWriter ([] : Buffer) "7d3f0c") "file"
                   (NewReader (bytes_of "test")) "id.png")))
  = fst (fst (fst (createFormFile (rt := sampleRuntime)
                     (multipart.NewWriter ([] : Buffer) "7d3f0c") "file"
                     {| io.s := bytes_of "a test"; io.i := 2; io.faults := [] |}
                     "id.png"))).
Proof.
  apply (createFormFile_reads_512_bytes (rt := sampleRuntime));
    solve [exact I | reflexivity].
Defined.

Lemma upload_header_matches_body_witness :
  exists req,
    snd (UploadDocument (rt := sampleRuntime) forbidden Background "a1"
           sampleRequest "id.png" []) = ([] ++ [req])%list
    /\ textproto.Get (Header req) "Content-Type"
       = "multipart/form-data; boundary=7d3f0c"
    /\ Body req
       = Some (uploadBody "7d3f0c" "id.png" "application/octet-stream"
                 (bytes_of "test") "national_identity_card" "" "").
Proof.
  apply (upload_header_matches_body (rt := sampleRuntime) forbidden Background "a1"
           sampleRequest "id.png" []); reflexivity.
Defined.

Lemma detector_receives_512_bytes_witness :
  exists buffer,
    length buffer = 512%nat
    /\ buffer = (bytes_of "test" ++ repeat "000"%byte 508)%list
    /\ filePartWritten (rt := sampleRuntime) "7d3f0c" "file" "id.png"
         (NewReader (bytes_of "test"))
       = bytes_of (fileHead "7d3f0c" (fileDisposition "file" "id.png")
                     (DetectContentType (Runtime := sampleRuntime) buffer)).
Proof.
  apply (detector_receives_512_bytes (rt := sampleRuntime) "7d3f0c" "file" "id.png"
           (NewReader (bytes_of "test"))); reflexivity.
Defined.

Lemma file_part_header_round_trip_witness :
  lineBreakFree "file" = true
  /\ lineBreakFree quotedName = true
  /\ readFilePartHeader "7d3f0c"
       (filePartWritten (rt := sampleRuntime) "7d3f0c" "file" quotedName
          (NewReader (bytes_of "test")))
     = Some ("file", quotedName).
Proof.
  split; [reflexivity|]. split; [reflexivity|].
  exact (proj2 (proj2 (proj2
           (file_part_header_round_trip (rt := sampleRuntime) "7d3f0c" "file"
              quotedName (NewReader (bytes_of "test")) eq_refl eq_refl)))
           eq_refl eq_refl).
Defined.

Lemma download_size_is_length_witness :
  Size {| Size := 11; Content := bytes_of "hello world" |}
  = len (Content {| Size := 11; Content := bytes_of "hello world" |}).
Proof.
  exact (download_size_is_length (rt := sampleRuntime)
           (answering 200 "hello world") Background "a1" "doc-1" []
           [downloadRequest (answering 200 "hello world") "a1" "doc-1"]
           {| Size := 11; Content := bytes_of "hello world" |} None eq_refl).
Defined.

Lemma Document_after_Next_witness :
  exists p,
    DocumentIter_Document
      (snd (fst (DocumentIter_Next (rt := sampleRuntime)
                   (ListDocuments (rt := sampleRuntime) (answering 200 "doc-1") "a1")
                   Background [])))
    = Returns p.
Proof.
  apply (Document_after_Next (rt := sampleRuntime) (answering 200 "doc-1") "a1");
    [apply Listed_start | reflexivity].
Defined.

Lemma GetDocument_decodes_body_witness :
  GetDocument (rt := sampleRuntime) (answering 200 "doc-1") Background "a1" "doc-1" []
  = (Returns (Some sampleDocument, None),
     [{| Method := "GET";
         URL := "https://api.onfido.com/v2/applicants/a1/documents/doc-1";
         Header := textproto.make; Body := None |}]).
Proof.
  exact (GetDocument_decodes_body (rt := sampleRuntime) (answering 200 "doc-1")
           Background "a1" "doc-1" []
           {| StatusCode := 200; RespBody := bytes_of "doc-1"; NextPage := "" |}
           eq_refl eq_refl eq_refl).
Defined.
